(** * Furnitron: scrape, extract, classify, aggregate, index

    A shallow embedding of [furnitron/web_scraper/main.py] and
    [furnitron/web_scraper/swhoosh.py].  Python strings are lists of Unicode
    code points; the browser, the tokenizer and the classifier are black boxes
    whose observable behaviour is a parameter of the functions that call
    them; files live in a finite map from paths to contents. *)

From Stdlib Require Import NArith ZArith List Bool String Ascii Lia.
From stdpp Require Import base list gmap strings.
Import ListNotations.

Set Default Proof Using "Type".

(** ** Strings *)

(** A character is a code point, a string a list of them. *)
Abbreviation char := N (only parsing).
Abbreviation str := (list N) (only parsing).

(** A literal of the source, as code points. *)
Definition lit (s : string) : str := map N_of_ascii (list_ascii_of_string s).
Arguments lit : simpl never.

Definition LF : char := 10%N.
Definition CR : char := 13%N.

(** Removal of a class of characters from both ends, shared by Python's
    [str.strip] and JavaScript's [String.prototype.trim]. *)
Fixpoint lstrip_with (sp : char -> bool) (s : str) : str :=
  match s with
  | [] => []
  | c :: s' => if sp c then lstrip_with sp s' else s
  end.

Definition rstrip_with (sp : char -> bool) (s : str) : str :=
  rev (lstrip_with sp (rev s)).

Definition strip_with (sp : char -> bool) (s : str) : str :=
  rstrip_with sp (lstrip_with sp s).

Module Py.

(** [str.isspace] on one code point (CPython's [_PyUnicode_IsWhitespace]). *)
Definition isspace (c : char) : bool :=
  ((9 <=? c) && (c <=? 13) || (28 <=? c) && (c <=? 32)
   || (c =? 133) || (c =? 160) || (c =? 5760)
   || (8192 <=? c) && (c <=? 8202)
   || (c =? 8232) || (c =? 8233) || (c =? 8239) || (c =? 8287)
   || (c =? 12288))%N.

(** [s.strip()] *)
Definition strip (s : str) : str := strip_with isspace s.

(** [s.split()]: the maximal runs of non-whitespace characters. *)
Fixpoint split (s : str) : list str :=
  match s with
  | [] => []
  | c :: s' =>
      if isspace c then split s'
      else match s' with
           | [] => [[c]]
           | c' :: _ =>
               if isspace c' then [c] :: split s'
               else match split s' with
                    | w :: ws => (c :: w) :: ws
                    | [] => [[c]]
                    end
           end
  end.

(** [s.startswith(p)] *)
Fixpoint startswith (p s : str) : bool :=
  match p, s with
  | [], _ => true
  | _ :: _, [] => false
  | a :: p', b :: s' => (a =? b)%N && startswith p' s'
  end.

(** [s.partition(sep)] without the separator: the text before the leftmost
    occurrence of [sep] and the text after it. *)
Fixpoint partition (sep s : str) : option (str * str) :=
  if startswith sep s then Some ([], drop (length sep) s)
  else match s with
       | [] => None
       | c :: s' =>
           match partition sep s' with
           | Some (before, after) => Some (c :: before, after)
           | None => None
           end
       end.

(** [s.split(sep)] for a non-empty [sep]; every cut removes at least one
    character, so [S (length s)] rounds are enough. *)
Fixpoint split_sep_fuel (fuel : nat) (sep s : str) : list str :=
  match fuel with
  | O => [s]
  | S fuel' =>
      match partition sep s with
      | None => [s]
      | Some (before, after) => before :: split_sep_fuel fuel' sep after
      end
  end.

Definition split_sep (sep s : str) : list str :=
  split_sep_fuel (S (length s)) sep s.

(** Reading in text mode with universal newlines: ["\r\n"] and ["\r"] are
    delivered as ["\n"]. *)
Fixpoint universal_newlines (s : str) : str :=
  match s with
  | [] => []
  | c :: s' =>
      if (c =? CR)%N then
        match s' with
        | c' :: s'' =>
            if (c' =? LF)%N then LF :: universal_newlines s''
            else LF :: universal_newlines s'
        | [] => [LF]
        end
      else c :: universal_newlines s'
  end.

(** The lines of a decoded text, each with its terminator: what
    [for line in file] yields. *)
Fixpoint lines_keepends (s : str) : list str :=
  match s with
  | [] => []
  | c :: s' =>
      if (c =? LF)%N then [c] :: lines_keepends s'
      else match lines_keepends s' with
           | [] => [[c]]
           | l :: ls => (c :: l) :: ls
           end
  end.

Definition iter_file (content : str) : list str :=
  lines_keepends (universal_newlines content).

(** The line boundaries of [str.splitlines]. *)
Definition is_linebreak (c : char) : bool :=
  ((10 <=? c) && (c <=? 13) || (28 <=? c) && (c <=? 30)
   || (c =? 133) || (c =? 8232) || (c =? 8233))%N.

(** [s.splitlines()] *)
Fixpoint splitlines (s : str) : list str :=
  match s with
  | [] => []
  | c :: s' =>
      if is_linebreak c then
        if (c =? CR)%N then
          match s' with
          | c' :: s'' =>
              if (c' =? LF)%N then [] :: splitlines s'' else [] :: splitlines s'
          | [] => [[]]
          end
        else [] :: splitlines s'
      else match splitlines s' with
           | [] => [[c]]
           | l :: ls => (c :: l) :: ls
           end
  end.

(** Truth value of a string. *)
Definition truthy (s : str) : bool :=
  match s with [] => false | _ :: _ => true end.

End Py.

Module Js.

(** WhiteSpace and LineTerminator of ECMAScript, the characters removed by
    [String.prototype.trim]. *)
Definition isspace (c : char) : bool :=
  ((9 <=? c) && (c <=? 13) || (c =? 32) || (c =? 160) || (c =? 5760)
   || (8192 <=? c) && (c <=? 8202)
   || (c =? 8232) || (c =? 8233) || (c =? 8239) || (c =? 8287)
   || (c =? 12288) || (c =? 65279))%N.

Definition trim (s : str) : str := strip_with isspace s.

Definition TEXT_NODE : N := 3%N.

(** [s !== ""] *)
Definition not_empty (s : str) : bool :=
  match s with [] => false | _ :: _ => true end.

End Js.

(** ** Exceptions *)

(** The exception classes the code distinguishes.  In Selenium every error
    class derives from [WebDriverException]; [TimeoutException] and
    [StaleElementReferenceException] are the two subclasses named in the
    source, [WebDriverException cls] stands for the base class and its other
    subclasses.  [PyException] is any class outside that hierarchy
    ([RuntimeError], [IndexError], [FileNotFoundError], ...). *)
Inductive exn : Type :=
| TimeoutException
| StaleElementReferenceException
| WebDriverException (cls : string)
| PyException (cls : string).

(** [isinstance(e, (TimeoutException, StaleElementReferenceException))] *)
Definition is_Timeout_or_Stale (e : exn) : bool :=
  match e with
  | TimeoutException | StaleElementReferenceException => true
  | _ => false
  end.

(** [isinstance(e, WebDriverException)] *)
Definition is_WebDriverException (e : exn) : bool :=
  match e with
  | PyException _ => false
  | _ => true
  end.

Inductive result (A : Type) : Type :=
| Ok (a : A)
| Raise (e : exn).
Arguments Ok {A} a.
Arguments Raise {A} e.

Definition bind {A B : Type} (r : result A) (k : A -> result B) : result B :=
  match r with
  | Ok a => k a
  | Raise e => Raise e
  end.

Notation "x <- r ;; k" := (bind r (fun x => k))
  (at level 100, r at next level, right associativity).

(** A call that returns nothing and may raise. *)
Definition may_raise (o : option exn) : result unit :=
  match o with
  | None => Ok tt
  | Some e => Raise e
  end.

(** ** Text Extractor *)

(** A node of the rendered document: its [nodeType], the [textContent] it
    has when it is childless (its character data; empty for an element), and
    its [childNodes]. *)
#[local] Unset Elimination Schemes.
Inductive node : Type :=
| Node (nodeType : N) (textContent : str) (childNodes : list node).
#[local] Set Elimination Schemes.

Definition hasChildNodes (element : node) : bool :=
  match element with
  | Node _ _ [] => false
  | Node _ _ (_ :: _) => true
  end.

(** The injected script of [get_all_leaf_nodes_text]. *)
Fixpoint getAllLeafNodesText (element : node) : list str :=
  match element with
  | Node nodeType textContent childNodes =>
      if hasChildNodes element then
        fold_left (fun nodes child => nodes ++ getAllLeafNodesText child)
                  childNodes []
      else if (nodeType =? Js.TEXT_NODE)%N && Js.not_empty (Js.trim textContent)
      then [Js.trim textContent]
      else []
  end.

(** ** Candidate Filter *)

Definition conditions : list (str -> bool) :=
  [ (fun t => Py.truthy (Py.strip t));
    (fun t => length (Py.split t) <=? 10) ].

Definition filter_text (text : str) : bool :=
  forallb (fun cond => cond text) conditions.

Definition get_candidate_names (leaf_nodes_text : list str) : list str :=
  List.filter filter_text leaf_nodes_text.

(** ** Batch Classifier *)

Definition BATCH_SIZE : nat := 64.

(** The tokenizer and the model as one black box: a batch of strings goes
    in, the list [outputs.logits.argmax(axis=1).tolist()] comes out, or the
    call raises. *)
Definition classifier := list str -> result (list Z).

(** [range(start, stop, step)] for a positive step; [fuel] bounds the number
    of elements. *)
Fixpoint range_fuel (fuel start stop step : nat) : list nat :=
  match fuel with
  | O => []
  | S fuel' =>
      if start <? stop then start :: range_fuel fuel' (start + step) stop step
      else []
  end.

Definition range (start stop step : nat) : result (list nat) :=
  if step =? 0 then Raise (PyException "ValueError")
  else Ok (range_fuel stop start stop step).

(** [l[i:j]] for [0 <= i <= j] *)
Definition slice {A : Type} (l : list A) (i j : nat) : list A :=
  take (j - i) (drop i l).

(** [[batch[i] for i in range(len(batch)) if is_furniture[i]]] *)
Fixpoint positives_at (batch : list str) (is_furniture : list Z)
    (idx : list nat) : result (list str) :=
  match idx with
  | [] => Ok []
  | i :: idx' =>
      match nth_error is_furniture i with
      | None => Raise (PyException "IndexError")
      | Some label =>
          if (label =? 0)%Z then positives_at batch is_furniture idx'
          else match nth_error batch i with
               | None => Raise (PyException "IndexError")
               | Some name =>
                   rest <- positives_at batch is_furniture idx' ;;
                   Ok (name :: rest)
               end
      end
  end.

Definition positives (batch : list str) (is_furniture : list Z)
    : result (list str) :=
  positives_at batch is_furniture (seq 0 (length batch)).

(** The body of the loop of [model_inference], run over the start indices
    [starts] with the names collected so far. *)
Fixpoint inference_loop (batch_size : nat) (names : list str)
    (model : classifier) (starts : list nat) (product_names : list str)
    : result (list str) :=
  match starts with
  | [] => Ok product_names
  | i :: starts' =>
      let batch := slice names i (i + batch_size) in
      is_furniture <- model batch ;;
      found <- positives batch is_furniture ;;
      inference_loop batch_size names model starts' (product_names ++ found)
  end.

(** [model_inference] with the module constant [BATCH_SIZE] as a parameter. *)
Definition model_inference_with (batch_size : nat) (names : list str)
    (model : classifier) : result (list str) :=
  starts <- range 0 (length names) batch_size ;;
  inference_loop batch_size names model starts [].

Definition model_inference (names : list str) (model : classifier)
    : result (list str) :=
  model_inference_with BATCH_SIZE names model.

(** ** Page Scraper *)

(** What the browser does on one visit: [driver.get(url)] returns or raises,
    the wait for the body element returns or raises, and [execute_script]
    runs the script on [document.body] or raises. *)
Record visit : Type := {
  navigate : option exn;
  wait_for_body : option exn;
  document_body : result node
}.

(** The browser session: the visit a URL leads to. *)
Definition webdriver := str -> visit.

Definition get_all_leaf_nodes_text (page : visit) : result (list str) :=
  body <- document_body page ;;
  Ok (getAllLeafNodesText body).

Inductive log_record : Type :=
| info_processing_url (url : str)
| error_encountered (e : exn)
| error_webdriver (url : str) (e : exn).

(** The [try] block of [scrape_product_names]. *)
Definition scrape_attempt (url : str) (driver : webdriver)
    (model : classifier) : result (list str) :=
  let page := driver url in
  _ <- may_raise (navigate page) ;;
  _ <- may_raise (wait_for_body page) ;;
  leaf_nodes_text <- get_all_leaf_nodes_text page ;;
  let candidate_names := get_candidate_names leaf_nodes_text in
  model_inference candidate_names model.

(** [scrape_product_names]: the records logged, and the value returned
    ([None] is Python's [None], reached by falling off the end of a
    handler) or the exception that leaves the function. *)
Definition scrape_product_names (url : str) (driver : webdriver)
    (model : classifier) : list log_record * result (option (list str)) :=
  match scrape_attempt url driver model with
  | Ok product_names => ([info_processing_url url], Ok (Some product_names))
  | Raise e =>
      if is_Timeout_or_Stale e then
        ([info_processing_url url; error_encountered e], Ok None)
      else if is_WebDriverException e then
        ([info_processing_url url; error_webdriver url e], Ok None)
      else ([info_processing_url url], Raise e)
  end.

(** ** Run Orchestrator *)

(** Paths are strings; a file system maps the paths of its files to their
    contents. *)
Abbreviation path := string (only parsing).
Abbreviation filesystem := (gmap string str) (only parsing).

Definition output_directory : path := "furnitron/data/inference_output".

(** [os.path.join(a, b)] on POSIX *)
Definition os_path_join (a b : path) : path :=
  match b with
  | String "/" _ => b
  | _ =>
      if String.eqb a "" then b
      else if String.eqb (substring (String.length a - 1) 1 a) "/"
           then (a ++ b)%string
           else (a ++ "/" ++ b)%string
  end.

Record run_state : Type := {
  files : filesystem;
  log : list log_record;
  progress : list (nat * nat)
}.

(** [output_file.write(data)] on the file opened at [p] *)
Definition write (p : path) (data : str) (st : run_state) : run_state :=
  {| files := <[p := default [] (files st !! p) ++ data]> (files st);
     log := log st;
     progress := progress st |}.

Definition logging (records : list log_record) (st : run_state) : run_state :=
  {| files := files st; log := log st ++ records; progress := progress st |}.

(** [progress_bar.progress((i + 1) / len(urls))] and the status text, which
    shows the same two numbers. *)
Definition report (i total : nat) (st : run_state) : run_state :=
  {| files := files st; log := log st;
     progress := progress st ++ [(i + 1, total)] |}.

(** Truth value of the scraper's return value. *)
Definition truthy_names (product_names : option (list str)) : bool :=
  match product_names with
  | Some (_ :: _) => true
  | _ => false
  end.

(** [output_file.writelines(lines)] *)
Definition writelines (p : path) (lines : list str) (st : run_state)
    : run_state :=
  fold_left (fun st line => write p line st) lines st.

(** The body of the [for] loop: the state after it and the exception that
    leaves it, if any. *)
Definition process_url (out : path) (total i : nat) (url : str)
    (driver : webdriver) (model : classifier) (st : run_state)
    : run_state * option exn :=
  let '(records, r) := scrape_product_names url driver model in
  let st := logging records st in
  match r with
  | Ok product_names =>
      let st :=
        if truthy_names product_names
        then
          let st := write out ([LF] ++ lit "URL: " ++ url ++ [LF]) st in
          writelines out
            (map (fun name => name ++ [LF]) (default [] product_names)) st
        else st in
      (report i total st, None)
  | Raise e =>
      if is_WebDriverException e
      then (report i total (logging [error_webdriver url e] st), None)
      else (st, Some e)
  end.

(** [for i, url in enumerate(urls)], from index [i] on.  The browser is
    given per iteration: what a URL leads to may change during the run. *)
Fixpoint for_urls (out : path) (total i : nat) (urls : list str)
    (drivers : nat -> webdriver) (model : classifier) (st : run_state)
    : run_state * option exn :=
  match urls with
  | [] => (st, None)
  | url :: urls' =>
      match process_url out total i url (drivers i) model st with
      | (st', None) => for_urls out total (S i) urls' drivers model st'
      | (st', Some e) => (st', Some e)
      end
  end.

(** [file.read().splitlines()] *)
Definition read_urls (content : str) : list str :=
  Py.splitlines (Py.universal_newlines content).

(** What the operating system answers to the two calls that prepare the
    output file: [os.makedirs(output_directory, exist_ok=True)] and
    [open(output_file_path, "w", encoding="utf-8")] return, or raise (an
    [OSError]: [FileExistsError] or [PermissionError] for the directory;
    [IsADirectoryError] for a path that names a directory,
    [FileNotFoundError] for a path whose directory is missing,
    [PermissionError]; a [ValueError] for a path with a null character).
    Directories, permissions and the resolution of a path are not part of
    [filesystem], which holds the contents of the files by path; what they
    make of the two calls is given by this record. *)
Record operating_system : Type := {
  os_makedirs : path -> option exn;
  open_w : path -> option exn
}.

(** [produce_output]: the state after the run and the exception that ends
    it, if any.  An exception of [os.makedirs] or of the [open] of the
    output file leaves the function before anything is written; the [open]
    of the URL file comes after it, when the output file is there and
    empty. *)
Definition produce_output (URLS_FILE OUTPUT_FILE_NAME : path)
    (os : operating_system) (drivers : nat -> webdriver) (model : classifier)
    (fs : filesystem) : run_state * option exn :=
  let st := {| files := fs; log := []; progress := [] |} in
  match os_makedirs os output_directory with
  | Some e => (st, Some e)
  | None =>
      let output_file_path := os_path_join output_directory OUTPUT_FILE_NAME in
      match open_w os output_file_path with
      | Some e => (st, Some e)
      | None =>
          let st := {| files := <[output_file_path := []]> fs;
                       log := []; progress := [] |} in
          match files st !! URLS_FILE with
          | None => (st, Some (PyException "FileNotFoundError"))
          | Some content =>
              let urls := read_urls content in
              for_urls output_file_path (length urls) 0 urls drivers model st
          end
      end
  end.

(** ** Search Indexer *)

(** A document of the index: its [url] and [content] fields. *)
Record document : Type := { url : str; content : str }.

Definition MARKER : str := lit "URL:".

(** The body of the loop over the lines of the file: the cursor and the
    documents handed to the writer. *)
Definition index_line (state : str * list document) (line : str)
    : result (str * list document) :=
  let '(current_url, added) := state in
  let line := Py.strip line in
  if Py.startswith MARKER line then
    match nth_error (Py.split_sep MARKER line) 1 with
    | Some rest => Ok (Py.strip rest, added)
    | None => Raise (PyException "IndexError")
    end
  else if Py.truthy line then
    Ok (current_url, added ++ [{| url := current_url; content := line |}])
  else Ok (current_url, added).

Fixpoint index_lines (lines : list str) (state : str * list document)
    : result (str * list document) :=
  match lines with
  | [] => Ok state
  | line :: lines' =>
      state' <- index_line state line ;;
      index_lines lines' state'
  end.

(** [add_data_to_index]: the documents of the index after the call.  The
    writer commits once, after the last line; an exception before that is
    caught and nothing is committed. *)
Definition add_data_to_index (index : list document) (fs : filesystem)
    (file_path : path) : list document :=
  match fs !! file_path with
  | None => index
  | Some text =>
      match index_lines (Py.iter_file text) ([], []) with
      | Ok (_, added) => index ++ added
      | Raise _ => index
      end
  end.

(** ** Index storage

    [create_search_index] of [swhoosh.py].  A directory of the disk is
    absent, or present without an index, or present with an index; an index
    has the schema it was created with and its documents. *)

Inductive field_type : Type :=
| ID (stored : bool)
| TEXT (stored : bool).

Abbreviation Schema := (list (string * field_type)) (only parsing).

(** [schema = Schema(url=ID(stored=True), content=TEXT(stored=True))] *)
Definition schema : Schema := [("url"%string, ID true); ("content"%string, TEXT true)].

Record stored_index : Type := {
  index_schema : Schema;
  index_documents : list document
}.

Abbreviation disk := (gmap string (option stored_index)) (only parsing).

(** [os.makedirs(index_dir)] when the directory does not exist *)
Definition makedirs_if_absent (index_dir : path) (d : disk) : disk :=
  match d !! index_dir with
  | None => <[index_dir := None]> d
  | Some _ => d
  end.

(** [exists_in(index_dir)] *)
Definition exists_in (index_dir : path) (d : disk) : bool :=
  match d !! index_dir with
  | Some (Some _) => true
  | _ => false
  end.

(** [create_search_index]: the disk after the call and the index returned,
    created empty with [schema] or opened as it is. *)
Definition create_search_index (index_dir : path) (schema : Schema) (d : disk)
    : disk * stored_index :=
  let d := makedirs_if_absent index_dir d in
  match d !! index_dir with
  | Some (Some ix) => (d, ix)
  | _ =>
      let ix := {| index_schema := schema; index_documents := [] |} in
      (<[index_dir := Some ix]> d, ix)
  end.

(** ** Analysis

    [analysis.py]: the product names of the artifacts, without the marker
    lines, and their frequencies. *)

(** [a == b] on strings *)
Fixpoint str_eqb (a b : str) : bool :=
  match a, b with
  | [], [] => true
  | x :: a', y :: b' => (x =? y)%N && str_eqb a' b'
  | _, _ => false
  end.

(** The inner loop of [create_temp_file_without_urls]: the lines of one file
    that do not start with the marker are written to the temporary file. *)
Definition copy_without_urls (temp : str) (lines : list str) : str :=
  fold_left (fun temp line =>
               if Py.startswith MARKER line then temp else temp ++ line)
            lines temp.

(** [create_temp_file_without_urls].  [temp_name] is the name the system
    gives the temporary file; a file that cannot be opened is reported and
    skipped. *)
Definition create_temp_file_without_urls (temp_name : path)
    (output_files : list path) (fs : filesystem) : filesystem * path :=
  let fs := <[temp_name := []]> fs in
  (fold_left
     (fun fs file_path =>
        match fs !! file_path with
        | None => fs
        | Some text =>
            <[temp_name := copy_without_urls (default [] (fs !! temp_name))
                             (Py.iter_file text)]> fs
        end)
     output_files fs,
   temp_name).

(** A [Counter]: the keys in the order of their first insertion, each with
    its count. *)
Abbreviation counter := (list (list N * nat)) (only parsing).

(** [counts[elem] = counts.get(elem, 0) + 1] *)
Fixpoint counter_add (elem : str) (counts : counter) : counter :=
  match counts with
  | [] => [(elem, 1)]
  | (key, n) :: counts' =>
      if str_eqb key elem then (key, S n) :: counts'
      else (key, n) :: counter_add elem counts'
  end.

(** [Counter(elems)] *)
Definition Counter (elems : list str) : counter :=
  fold_left (fun counts elem => counter_add elem counts) elems [].

(** [counts[key]], zero for a missing key *)
Fixpoint counter_get (key : str) (counts : counter) : nat :=
  match counts with
  | [] => 0
  | (key', n) :: counts' =>
      if str_eqb key' key then n else counter_get key counts'
  end.

(** [[line.strip() for line in file if line.strip()]] *)
Definition categories_of (text : str) : list str :=
  map Py.strip
      (List.filter (fun line => Py.truthy (Py.strip line)) (Py.iter_file text)).

Definition count_categories (file_path : path) (fs : filesystem) : counter :=
  match fs !! file_path with
  | Some text => Counter (categories_of text)
  | None => Counter []
  end.

(** ** Dashboard

    The parts of [Welcome.py] that work on the artifacts. *)

(** The loop of the "Index Data" button:
    [for file_path in output_files: add_data_to_index(index_dir, file_path)]. *)
Definition index_data (index : list document) (fs : filesystem)
    (output_files : list path) : list document :=
  fold_left (fun index file_path => add_data_to_index index fs file_path)
            output_files index.

(** The grouping of the search results in [main]: a dictionary from each
    URL, in the order the URLs first appear, to the contents found under
    it.

    [if url not in results_by_url: results_by_url[url] = []]
    [results_by_url[url].append(content)] *)
Fixpoint group_append (key value : str) (groups : list (list N * list (list N)))
    : list (list N * list (list N)) :=
  match groups with
  | [] => [(key, [value])]
  | (k, values) :: groups' =>
      if str_eqb k key then (k, values ++ [value]) :: groups'
      else (k, values) :: group_append key value groups'
  end.

Definition results_by_url (results : list document)
    : list (list N * list (list N)) :=
  fold_left (fun groups result =>
               group_append (url result) (content result) groups)
            results [].

(** [p.rfind(c)] from index [i] on: the index of the last [c], [-1] when
    there is none. *)
Fixpoint rfind_from (i : Z) (c : ascii) (p : list ascii) : Z :=
  match p with
  | [] => (-1)%Z
  | x :: p' =>
      let later := rfind_from (i + 1) c p' in
      if (0 <=? later)%Z then later
      else if Ascii.eqb x c then i else (-1)%Z
  end.

Definition rfind (c : ascii) (p : list ascii) : Z := rfind_from 0 c p.

(** [os.path.splitext(p)] on POSIX: the extension starts at the last dot of
    the last component, unless only dots come before it there. *)
Definition splitext (p : list ascii) : list ascii * list ascii :=
  let sepIndex := rfind "/" p in
  let dotIndex := rfind "." p in
  if (sepIndex <? dotIndex)%Z then
    if existsb (fun x => negb (Ascii.eqb x "."))
               (slice p (Z.to_nat (sepIndex + 1)) (Z.to_nat dotIndex))
    then (take (Z.to_nat dotIndex) p, drop (Z.to_nat dotIndex) p)
    else (p, [])
  else (p, []).

(** [generate_output_file_path], from the name of the uploaded file. *)
Definition generate_output_file_path (name : string) : string :=
  (string_of_list_ascii (fst (splitext (list_ascii_of_string name)))
   ++ "_output.txt")%string.

(** * Specification

    The notions the properties are stated with: the words of the
    specification as definitions, and the runs the examples use. *)

(** ** Candidate Filter *)

(** The words of the specification.  A string is blank after trimming when
    stripping leaves nothing; its word count is the number of places where a
    run of non-whitespace characters begins. *)
Fixpoint word_count_from (in_word : bool) (s : str) : nat :=
  match s with
  | [] => 0
  | c :: s' =>
      if Py.isspace c then word_count_from false s'
      else (if in_word then 0 else 1) + word_count_from true s'
  end.

Definition word_count (s : str) : nat := word_count_from false s.

Definition retained (t : str) : Prop :=
  Py.strip t <> [] /\ word_count t <= 10.

(** [out] is [l] with exactly the elements satisfying [P] kept, in order. *)
Inductive kept_from (P : str -> Prop) : list str -> list str -> Prop :=
| kept_nil : kept_from P [] []
| kept_keep t l out : P t -> kept_from P l out -> kept_from P (t :: l) (t :: out)
| kept_drop t l out : ~ P t -> kept_from P l out -> kept_from P (t :: l) out.

(** ** Text Extractor *)

(** The specification's reading of the extractor.  [leaf_text_nodes] lists
    the contents of the childless text nodes in depth-first pre-order;
    [extracted_per_spec] drops those that are entirely whitespace and trims
    the others. *)
Fixpoint leaf_text_nodes (n : node) : list str :=
  match n with
  | Node nodeType textContent childNodes =>
      match childNodes with
      | [] => if (nodeType =? Js.TEXT_NODE)%N then [textContent] else []
      | _ :: _ => flat_map leaf_text_nodes childNodes
      end
  end.

Definition entirely_whitespace (s : str) : bool := forallb Js.isspace s.

Definition extracted_per_spec (body : node) : list str :=
  map Js.trim
      (List.filter (fun t => negb (entirely_whitespace t)) (leaf_text_nodes body)).

(** ** Batch Classifier *)

(** The chunks [model_inference] cuts the list into: the slices at the start
    indices of its loop. *)
Definition batches (batch_size : nat) (names : list str) : list (list str) :=
  map (fun i => slice names i (i + batch_size))
      (range_fuel (length names) 0 (length names) batch_size).

(** Classification of one chunk: the model labels it, the names with a
    non-zero label are kept. *)
Definition classify_chunk (model : classifier) (batch : list str)
    : result (list str) :=
  is_furniture <- model batch ;;
  positives batch is_furniture.

(** Classification chunk by chunk, the positives concatenated. *)
Fixpoint classify_chunks (model : classifier) (chunks : list (list str))
    : result (list str) :=
  match chunks with
  | [] => Ok []
  | batch :: chunks' =>
      found <- classify_chunk model batch ;;
      rest <- classify_chunks model chunks' ;;
      Ok (found ++ rest)
  end.

(** A model that labels every item by itself, whatever batch it comes in. *)
Definition itemwise (model : classifier) (label : str -> Z) : Prop :=
  forall batch, model batch = Ok (map label batch).

Definition positive (label : str -> Z) (name : str) : bool :=
  negb (label name =? 0)%Z.

(** ** Page Scraper *)

(** The first of the steps 1 to 3 (navigation, wait for the body, text
    extraction) that fails on [page], with the exception it raises. *)
Inductive fails_with (page : visit) (e : exn) : Prop :=
| fails_navigate :
    navigate page = Some e -> fails_with page e
| fails_wait :
    navigate page = None -> wait_for_body page = Some e -> fails_with page e
| fails_extract :
    navigate page = None -> wait_for_body page = None ->
    document_body page = Raise e -> fails_with page e.

(** ** Run Orchestrator *)

(** The block of the output format: a blank line, the marker line, one line
    per name. *)
Definition block (u : str) (product_names : list str) : str :=
  [LF] ++ lit "URL: " ++ u ++ [LF]
  ++ concat (map (fun name => name ++ [LF]) product_names).

(** What a URL contributes to the artifact, given what its scrape returned:
    its block when there is at least one name, nothing otherwise. *)
Definition block_of (u : str) (r : result (option (list str))) : str :=
  match r with
  | Ok (Some (name :: product_names)) => block u (name :: product_names)
  | _ => []
  end.

(** The artifact of the specification for the URLs processed from index [i]
    on: the blocks of the URLs with names, in processing order. *)
Fixpoint artifact_per_spec (drivers : nat -> webdriver) (model : classifier)
    (i : nat) (urls : list str) : str :=
  match urls with
  | [] => []
  | u :: urls' =>
      block_of u (snd (scrape_product_names u (drivers i) model))
      ++ artifact_per_spec drivers model (S i) urls'
  end.

(** The records the scrapes of these URLs log. *)
Fixpoint records_per_spec (drivers : nat -> webdriver) (model : classifier)
    (i : nat) (urls : list str) : list log_record :=
  match urls with
  | [] => []
  | u :: urls' =>
      fst (scrape_product_names u (drivers i) model)
      ++ records_per_spec drivers model (S i) urls'
  end.

(** The URLs whose scrape was started, as the log shows them. *)
Definition visited (records : list log_record) : list str :=
  flat_map (fun r => match r with
                     | info_processing_url u => [u]
                     | _ => []
                     end) records.


(** The exception that keeps a run from opening its output file, if there
    is one: that of making the output directory, or else that of opening
    the path. *)
Definition output_failure (os : operating_system) (OUTPUT_FILE_NAME : path)
    : option exn :=
  match os_makedirs os output_directory with
  | Some e => Some e
  | None => open_w os (os_path_join output_directory OUTPUT_FILE_NAME)
  end.

(** ** A run of the specification's scenario *)

Definition siteA : str := lit "siteA.com".
Definition siteB : str := lit "siteB.com".

Definition text_node (s : string) : node := Node Js.TEXT_NODE (lit s) [].
Definition element (childNodes : list node) : node := Node 1 [] childNodes.

Definition demo_body : node :=
  element
    [ element [text_node "  Oak Chair "; element []];
      text_node "   ";
      element [text_node "Welcome to our store"; element [element [text_node "Lamp"]]] ].

Definition demo_label (name : str) : Z :=
  if Py.startswith (lit "Welcome") name then 0%Z else 1%Z.

Definition demo_model : classifier := fun batch => Ok (map demo_label batch).

Definition page_loaded (body : node) : visit :=
  {| navigate := None; wait_for_body := None; document_body := Ok body |}.

Definition page_timeout : visit :=
  {| navigate := Some TimeoutException; wait_for_body := None;
     document_body := Raise TimeoutException |}.

(** siteA loads, every other site times out. *)
Definition demo_driver : webdriver :=
  fun u => if Py.startswith (lit "siteA") u then page_loaded demo_body
           else page_timeout.

Definition demo_fs : filesystem :=
  {[ "urls.csv"%string := siteA ++ [LF] ++ siteB ++ [LF] ]}.

Definition demo_out : path := os_path_join output_directory "out.txt".

(** A system on which the directory can be made and every path opened. *)
Definition demo_os : operating_system :=
  {| os_makedirs := fun _ => None; open_w := fun _ => None |}.

(** A system on which the output directory can be made and holds no
    directory: a path that ends with a slash names a directory, a path
    directly inside the output directory is opened, and the directory of
    any other path is missing. *)
Definition fresh_os : operating_system :=
  {| os_makedirs := fun _ => None;
     open_w := fun p =>
       let d := (output_directory ++ "/")%string in
       let name := substring (String.length d)
                             (String.length p - String.length d) p in
       if String.eqb (substring (String.length p - 1) 1 p) "/"
       then Some (PyException "IsADirectoryError")
       else if String.prefix d p
               && negb (existsb (Ascii.eqb "/") (list_ascii_of_string name))
            then None
            else Some (PyException "FileNotFoundError") |}.

(** The file name the script passes: the constant [OUTPUT_FILE] of
    [main.py]. *)
Definition OUTPUT_FILE : path :=
  "furnitron/data/inference_output/product_names.txt".

(** A classifier whose label for a candidate depends on the batch it is
    in, as a model does whose logits change with the padding of the batch:
    a candidate is positive when no candidate of its batch is longer. *)
Definition padding_model : classifier :=
  fun batch =>
    let longest := fold_right Nat.max 0 (map (@length N) batch) in
    Ok (map (fun name => if length name =? longest then 1%Z else 0%Z) batch).

(** A classifier that fails on one particular name, as a model does that
    runs out of memory on one input, and a browser that loads both sites. *)
Definition crash_model : classifier :=
  fun batch =>
    if existsb (Py.startswith (lit "Sofa")) batch
    then Raise (PyException "RuntimeError")
    else Ok (map (fun _ => 1%Z) batch).

Definition crash_driver : webdriver :=
  fun u => if Py.startswith (lit "siteA") u
           then page_loaded (element [text_node "Sofa"])
           else page_loaded (element [text_node "Lamp"]).

(** The artifact of the round-trip scenario, and a file whose first line
    comes before any marker. *)
Definition demo_artifact : filesystem :=
  {[ "out.txt"%string :=
       block (lit "A") [lit "n1"; lit "n2"] ++ block (lit "B") [lit "n3"] ]}.

Definition demo_headless : filesystem :=
  {[ "out.txt"%string :=
       lit "Oak Chair" ++ [LF; LF] ++ lit "URL: B" ++ [LF] ++ lit "Lamp" ++ [LF] ]}.

(** ** Search Indexer *)

(** The text between the marker at the start of a stripped marker line and
    the next occurrence of the marker, stripped: what the cursor becomes. *)
Definition url_of_marker_line (line : str) : str :=
  Py.strip match Py.partition MARKER (drop 4 line) with
           | Some (before, _) => before
           | None => drop 4 line
           end.

(** The effect of one line of the file: the cursor after it and the
    documents it adds. *)
Definition line_effect (current_url line : str) : str * list document :=
  let line := Py.strip line in
  if Py.startswith MARKER line then (url_of_marker_line line, [])
  else if Py.truthy line
       then (current_url, [{| url := current_url; content := line |}])
       else (current_url, []).

(** The documents the lines of a file add, read with the cursor at
    [current_url]. *)
Fixpoint documents_from (current_url : str) (lines : list str)
    : list document :=
  match lines with
  | [] => []
  | line :: lines' =>
      snd (line_effect current_url line)
      ++ documents_from (fst (line_effect current_url line)) lines'
  end.

(** *** Reading back what the pipeline wrote *)

Definition no_newline (s : str) : bool :=
  forallb (fun c => negb (c =? LF)%N && negb (c =? CR)%N) s.

(** A URL the indexer reads back as it is: on one line, without surrounding
    whitespace, without the marker inside. *)
Definition plain_url (u : str) : Prop :=
  no_newline u = true /\ Py.strip u = u /\ Py.partition MARKER u = None.

(** A name the indexer reads back as it is: not empty, on one line, without
    surrounding whitespace, not starting with the marker. *)
Definition plain_name (n : str) : Prop :=
  no_newline n = true /\ Py.strip n = n /\ n <> []
  /\ Py.startswith MARKER n = false.

(** ** Notions of the further properties *)

(** The names of a chunk whose label, at the same position, is not zero. *)
Definition labelled_positive (batch : list str) (labels : list Z) : list str :=
  map fst (List.filter (fun p => negb (snd p =? 0)%Z) (combine batch labels)).

(** The URLs of a run whose scrape returned names, each with its names. *)
Fixpoint scraped (drivers : nat -> webdriver) (model : classifier)
    (i : nat) (urls : list str) : list (str * list str) :=
  match urls with
  | [] => []
  | u :: urls' =>
      match snd (scrape_product_names u (drivers i) model) with
      | Ok (Some (name :: names)) => [(u, name :: names)]
      | _ => []
      end ++ scraped drivers model (S i) urls'
  end.

(** One document per name, under the URL of its block. *)
Definition documents_of (found : list (str * list str)) : list document :=
  flat_map (fun b => map (fun n => {| url := fst b; content := n |}) (snd b))
           found.

(** The documents one file contributes to the index. *)
Definition documents_of_file (fs : filesystem) (file_path : path)
    : list document :=
  match fs !! file_path with
  | Some text => documents_from [] (Py.iter_file text)
  | None => []
  end.

Definition no_linebreak (s : str) : bool :=
  forallb (fun c => negb (Py.is_linebreak c)) s.

(** A text that is empty or ends with a line feed. *)
Fixpoint ends_with_newline (s : str) : bool :=
  match s with
  | [] => true
  | c :: s' =>
      match s' with
      | [] => (c =? LF)%N
      | _ :: _ => ends_with_newline s'
      end
  end.

(** A line with its line feed and no other line break. *)
Definition terminated_line (line : str) : Prop :=
  exists body, line = body ++ [LF] /\ no_newline body = true.

(** The lines of the readable files, in order, that do not start with the
    marker. *)
Definition kept_lines (fs : filesystem) (output_files : list path)
    : list str :=
  flat_map (fun file_path =>
              match fs !! file_path with
              | Some text =>
                  List.filter (fun line => negb (Py.startswith MARKER line))
                              (Py.iter_file text)
              | None => []
              end)
           output_files.

(** How often [key] occurs in [elems]. *)
Definition occurrences (key : str) (elems : list str) : nat :=
  length (List.filter (fun elem => str_eqb elem key) elems).

(** The contents of the results found under [key], in the order of the
    results. *)
Definition contents_under (key : str) (results : list document) : list str :=
  map content (List.filter (fun result => str_eqb (url result) key) results).

(** The entry of a key in a dictionary of groups, empty when it has none. *)
Fixpoint group_get (key : str) (groups : list (list N * list (list N)))
    : list (list N) :=
  match groups with
  | [] => []
  | (k, values) :: groups' =>
      if str_eqb k key then values else group_get key groups'
  end.

(** Whether [key] is among [keys]. *)
Definition has_key (key : str) (keys : list (list N)) : bool :=
  existsb (fun k => str_eqb k key) keys.

(** The distinct elements of a list in the order they first appear. *)
Fixpoint first_seen (l : list (list N)) : list (list N) :=
  match l with
  | [] => []
  | x :: l' => x :: List.filter (fun y => negb (str_eqb x y)) (first_seen l')
  end.

(** * Properties *)

(** ** Stripping *)

Section StripFacts.
Variable sp : char -> bool.

Lemma lstrip_with_app (l r : str) :
  lstrip_with sp (l ++ r) =
  match lstrip_with sp l with
  | [] => lstrip_with sp r
  | _ :: _ => lstrip_with sp l ++ r
  end.
Proof.
  induction l as [|c l IH]; simpl; [by destruct (lstrip_with sp r)|].
  destruct (sp c); [exact IH | reflexivity].
Qed.

Lemma lstrip_with_nil (s : str) :
  lstrip_with sp s = [] <-> forallb sp s = true.
Proof.
  induction s as [|c s IH]; simpl; [tauto|].
  destruct (sp c); simpl; [exact IH | split; discriminate].
Qed.

Lemma lstrip_with_head (s : str) (c : char) (t : str) :
  lstrip_with sp s = c :: t -> sp c = false.
Proof.
  induction s as [|a s IH]; simpl; [discriminate|].
  destruct (sp a) eqn:Ha; [exact IH|].
  intros [= <- _]. exact Ha.
Qed.

Lemma lstrip_with_fixed (c : char) (t : str) :
  sp c = false -> lstrip_with sp (c :: t) = c :: t.
Proof. intros H. simpl. by rewrite H. Qed.

(** [rstrip_with] read from the left. *)
Lemma rstrip_with_cons (c : char) (t : str) :
  rstrip_with sp (c :: t) =
  match rstrip_with sp t with
  | [] => if sp c then [] else [c]
  | _ :: _ => c :: rstrip_with sp t
  end.
Proof.
  unfold rstrip_with. simpl rev. rewrite lstrip_with_app.
  destruct (lstrip_with sp (rev t)) as [|a u] eqn:E.
  - simpl. by destruct (sp c).
  - rewrite rev_app_distr. simpl rev at 1. simpl.
    destruct (rev u ++ [a]) eqn:E'; [|reflexivity].
    by destruct (rev u).
Qed.

Lemma rstrip_with_nil (s : str) :
  rstrip_with sp s = [] <-> forallb sp s = true.
Proof.
  induction s as [|c s IH]; [by unfold rstrip_with|].
  rewrite rstrip_with_cons. simpl.
  destruct (rstrip_with sp s) eqn:E.
  - destruct (sp c); simpl; [tauto|]. split; discriminate.
  - split; [discriminate|]. intros H. apply andb_prop in H as [_ H].
    apply IH in H. discriminate.
Qed.

Lemma rstrip_with_cons_keep (c : char) (t : str) :
  sp c = false -> rstrip_with sp (c :: t) = c :: rstrip_with sp t.
Proof.
  intros H. rewrite rstrip_with_cons, H.
  by destruct (rstrip_with sp t).
Qed.

Lemma rstrip_with_snoc (s : str) (c : char) :
  sp c = true -> rstrip_with sp (s ++ [c]) = rstrip_with sp s.
Proof.
  intros H. unfold rstrip_with. rewrite rev_app_distr. simpl. by rewrite H.
Qed.

Lemma rstrip_with_prepend (pre s : str) :
  rstrip_with sp s = s -> s <> [] -> rstrip_with sp (pre ++ s) = pre ++ s.
Proof.
  intros Hs Hne. induction pre as [|c pre IH]; simpl; [exact Hs|].
  rewrite rstrip_with_cons, IH.
  destruct (pre ++ s) eqn:E; [|reflexivity].
  by destruct pre, s.
Qed.

Lemma strip_with_nil (s : str) :
  strip_with sp s = [] <-> forallb sp s = true.
Proof.
  unfold strip_with. rewrite rstrip_with_nil. split.
  - intros H. apply lstrip_with_nil.
    destruct (lstrip_with sp s) as [|c t] eqn:E; [reflexivity|].
    apply lstrip_with_head in E. simpl in H. by rewrite E in H.
  - intros H. apply lstrip_with_nil in H. by rewrite H.
Qed.

(** A stripped string starts with a character that is not stripped. *)
Lemma strip_with_head (s : str) (c : char) (t : str) :
  strip_with sp s = c :: t -> sp c = false.
Proof.
  unfold strip_with.
  destruct (lstrip_with sp s) as [|a u] eqn:E; [by unfold rstrip_with|].
  apply lstrip_with_head in E.
  rewrite rstrip_with_cons_keep by exact E.
  intros [= <- _]. exact E.
Qed.

(** So it is never made of stripped characters only. *)
Lemma strip_with_not_blank (s : str) :
  strip_with sp s <> [] -> forallb sp (strip_with sp s) = false.
Proof.
  intros H. destruct (strip_with sp s) as [|c t] eqn:E; [done|].
  apply strip_with_head in E. simpl. by rewrite E.
Qed.

Lemma strip_with_snoc (s : str) (c : char) :
  sp c = true -> strip_with sp (s ++ [c]) = strip_with sp s.
Proof.
  intros H. unfold strip_with. rewrite lstrip_with_app.
  destruct (lstrip_with sp s) eqn:E.
  - simpl. by rewrite H.
  - by rewrite rstrip_with_snoc.
Qed.

(** The two halves of a fixed point of [strip_with]. *)
Lemma strip_with_fixed (s : str) :
  strip_with sp s = s -> lstrip_with sp s = s /\ rstrip_with sp s = s.
Proof.
  intros H. destruct s as [|c t]; [by unfold rstrip_with|].
  assert (Hc : sp c = false) by (eapply strip_with_head; exact H).
  unfold strip_with in H. rewrite lstrip_with_fixed in H by exact Hc.
  split; [by apply lstrip_with_fixed | exact H].
Qed.

End StripFacts.

(** ** Python's string methods *)

Lemma startswith_prefix (p s : str) :
  Py.startswith p s = true -> s = p ++ drop (length p) s.
Proof.
  revert s. induction p as [|a p IH]; intros s H; [reflexivity|].
  destruct s as [|b s]; [discriminate|]. simpl in H.
  apply andb_prop in H as [Hab H]. apply N.eqb_eq in Hab as ->.
  simpl. f_equal. by apply IH.
Qed.

(** [partition] cuts at an occurrence of the separator. *)
Lemma partition_sound (sep s before after : str) :
  Py.partition sep s = Some (before, after) -> s = before ++ sep ++ after.
Proof.
  revert before. induction s as [|c s IH]; intros before.
  - simpl. destruct (Py.startswith sep []) eqn:E; [|discriminate].
    intros [= <- <-]. by apply startswith_prefix in E.
  - cbn [Py.partition]. destruct (Py.startswith sep (c :: s)) eqn:E.
    + intros [= <- <-]. by apply startswith_prefix in E.
    + destruct (Py.partition sep s) as [[b a]|]; [|discriminate].
      intros [= <- <-]. simpl. f_equal. by apply IH.
Qed.

(** Every cut of [split_sep_fuel] shortens the text, so the fuel that
    [split_sep] gives is enough: more fuel changes nothing. *)
Lemma split_sep_fuel_enough (sep : str) :
  sep <> [] ->
  forall fuel1 fuel2 s,
    length s < fuel1 -> length s < fuel2 ->
    Py.split_sep_fuel fuel1 sep s = Py.split_sep_fuel fuel2 sep s.
Proof.
  intros Hsep. induction fuel1 as [|fuel1 IH]; intros fuel2 s H1 H2; [lia|].
  destruct fuel2 as [|fuel2]; [lia|]. cbn [Py.split_sep_fuel].
  destruct (Py.partition sep s) as [[b a]|] eqn:E; [|reflexivity].
  apply partition_sound in E. subst s. rewrite !length_app in H1, H2.
  assert (0 < length sep) by (destruct sep; [done | simpl; lia]).
  f_equal. apply IH; lia.
Qed.

(** Likewise for the fuel of [range]. *)
Lemma range_fuel_enough (step stop : nat) :
  1 <= step ->
  forall fuel1 fuel2 start,
    stop - start <= fuel1 -> stop - start <= fuel2 ->
    range_fuel fuel1 start stop step = range_fuel fuel2 start stop step.
Proof.
  intros Hstep. induction fuel1 as [|fuel1 IH]; intros fuel2 start H1 H2.
  - destruct fuel2 as [|fuel2]; [reflexivity|]. simpl.
    destruct (Nat.ltb_spec start stop); [lia | reflexivity].
  - destruct fuel2 as [|fuel2]; simpl;
      destruct (Nat.ltb_spec start stop); try reflexivity; try lia.
    f_equal. apply IH; lia.
Qed.

Lemma split_cons (c : char) (s : str) :
  Py.split (c :: s) =
  if Py.isspace c then Py.split s
  else match s with
       | [] => [[c]]
       | c' :: _ =>
           if Py.isspace c' then [c] :: Py.split s
           else match Py.split s with
                | w :: ws => (c :: w) :: ws
                | [] => [[c]]
                end
       end.
Proof. reflexivity. Qed.

(** The words of [split] are the non-whitespace characters of the text. *)
Lemma split_concat (s : str) :
  concat (Py.split s) = List.filter (fun c => negb (Py.isspace c)) s.
Proof.
  induction s as [|c s IH]; [reflexivity|].
  rewrite split_cons. cbn [List.filter].
  destruct (Py.isspace c) eqn:Hc; cbn [negb]; [exact IH|].
  destruct s as [|c' s]; [reflexivity|].
  destruct (Py.isspace c') eqn:Hc'.
  - cbn [concat app]. by rewrite IH.
  - rewrite <- IH.
    destruct (Py.split (c' :: s)) as [|w ws] eqn:E; [|reflexivity].
    rewrite split_cons, Hc' in E. destruct s as [|c'' s]; [discriminate|].
    destruct (Py.isspace c''); [discriminate|].
    by destruct (Py.split (c'' :: s)).
Qed.

Lemma split_no_whitespace (s : str) :
  Forall (fun w => w <> [] /\ forallb (fun c => negb (Py.isspace c)) w = true)
         (Py.split s).
Proof.
  induction s as [|c s IH]; [constructor|].
  rewrite split_cons. destruct (Py.isspace c) eqn:Hc; [exact IH|].
  destruct s as [|c' s].
  - constructor; [|constructor]. simpl. by rewrite Hc.
  - destruct (Py.isspace c') eqn:Hc'.
    + constructor; [|exact IH]. simpl. by rewrite Hc.
    + destruct (Py.split (c' :: s)) as [|w ws].
      * constructor; [|constructor]. simpl. by rewrite Hc.
      * inversion IH as [|? ? [Hw Hf] Hws]; subst.
        constructor; [|exact Hws]. simpl. by rewrite Hc, Hf.
Qed.

(** ** Candidate Filter *)

Lemma kept_from_sublist (P : str -> Prop) (l out : list str) :
  kept_from P l out -> out `sublist_of` l.
Proof.
  induction 1; [constructor | by apply sublist_skip | by apply sublist_cons].
Qed.

Lemma kept_from_Forall (P : str -> Prop) (l out : list str) :
  kept_from P l out -> Forall P out.
Proof. induction 1; auto. Qed.

Lemma split_length_aux (s : str) :
  length (Py.split s) = word_count_from false s /\
  forall c, Py.isspace c = false ->
            length (Py.split (c :: s)) = S (word_count_from true s).
Proof.
  induction s as [|a s [IH1 IH2]].
  - split; [reflexivity|]. intros c Hc. rewrite split_cons, Hc. reflexivity.
  - split.
    + destruct (Py.isspace a) eqn:Ha.
      * rewrite split_cons, Ha. simpl. by rewrite Ha.
      * rewrite (IH2 a Ha). simpl. by rewrite Ha.
    + intros c Hc. rewrite split_cons, Hc. cbv iota.
      cbn [word_count_from]. destruct (Py.isspace a) eqn:Ha.
      * cbn [length]. rewrite split_cons, Ha, IH1. reflexivity.
      * specialize (IH2 a Ha).
        destruct (Py.split (a :: s)) as [|w ws]; [discriminate|].
        exact IH2.
Qed.

(** [len(t.split())] is the word count. *)
Lemma split_length (s : str) : length (Py.split s) = word_count s.
Proof. apply split_length_aux. Qed.

(** A string has a word exactly when stripping leaves something. *)
Lemma word_count_zero (s : str) : word_count s = 0 <-> Py.strip s = [].
Proof.
  unfold Py.strip. rewrite strip_with_nil. unfold word_count.
  induction s as [|c s IH]; simpl; [tauto|].
  destruct (Py.isspace c); simpl; [exact IH|]. split; discriminate.
Qed.

Lemma filter_text_retained (t : str) : filter_text t = true <-> retained t.
Proof.
  unfold filter_text, conditions, retained. simpl.
  rewrite andb_true_r, andb_true_iff, split_length, Nat.leb_le.
  destruct (Py.strip t); simpl; intuition congruence.
Qed.

Lemma get_candidate_names_kept (l : list str) :
  kept_from retained l (get_candidate_names l).
Proof.
  induction l as [|t l IH]; [constructor|].
  unfold get_candidate_names in *. simpl.
  destruct (filter_text t) eqn:E.
  - apply kept_keep; [by apply filter_text_retained | exact IH].
  - apply kept_drop; [|exact IH].
    intros H. apply filter_text_retained in H. congruence.
Qed.

(** C4. The Candidate Filter keeps, in their order, exactly the strings that
    are non-empty after trimming and have at most ten whitespace-delimited
    words: its output is an order-preserving subsequence of its input, every
    element of the output is such a string, and a string passes the filter
    if and only if it is one. *)
Theorem candidate_filter_retains (leaf_nodes_text : list str) :
  kept_from retained leaf_nodes_text (get_candidate_names leaf_nodes_text)
  /\ get_candidate_names leaf_nodes_text `sublist_of` leaf_nodes_text
  /\ Forall retained (get_candidate_names leaf_nodes_text)
  /\ (forall t, filter_text t = true <-> retained t)
  /\ (forall t, In t (get_candidate_names leaf_nodes_text)
                <-> In t leaf_nodes_text /\ retained t).
Proof.
  pose proof (get_candidate_names_kept leaf_nodes_text) as K.
  split; [exact K|].
  split; [by eapply kept_from_sublist|].
  split; [by eapply kept_from_Forall|].
  split; [exact filter_text_retained|].
  intros t. unfold get_candidate_names.
  rewrite filter_In, filter_text_retained. tauto.
Qed.

(** ** Text Extractor *)

Lemma node_ind (P : node -> Prop) :
  (forall nodeType textContent childNodes,
      Forall P childNodes -> P (Node nodeType textContent childNodes)) ->
  forall n, P n.
Proof.
  intros step. fix IH 1. intros [ty txt cs]. apply step.
  induction cs as [|c cs IHcs]; constructor; [apply IH | exact IHcs].
Qed.

Lemma fold_left_concat {A B : Type} (f : A -> list B) (l : list A)
    (acc : list B) :
  fold_left (fun nodes child => nodes ++ f child) l acc = acc ++ flat_map f l.
Proof.
  revert acc. induction l as [|x l IH]; intros acc; simpl.
  - by rewrite app_nil_r.
  - by rewrite IH, app_assoc.
Qed.

Lemma trim_not_empty (s : str) :
  Js.not_empty (Js.trim s) = negb (entirely_whitespace s).
Proof.
  unfold Js.trim, entirely_whitespace.
  destruct (strip_with Js.isspace s) eqn:E.
  - apply strip_with_nil in E. by rewrite E.
  - destruct (forallb Js.isspace s) eqn:F; [|reflexivity].
    apply strip_with_nil in F. congruence.
Qed.

Lemma getAllLeafNodesText_per_spec (body : node) :
  getAllLeafNodesText body = extracted_per_spec body.
Proof.
  induction body as [ty txt cs IH] using node_ind.
  unfold extracted_per_spec. destruct cs as [|c cs].
  - simpl. rewrite trim_not_empty.
    destruct (ty =? Js.TEXT_NODE)%N; [|reflexivity].
    simpl. by destruct (entirely_whitespace txt).
  - cbn [getAllLeafNodesText leaf_text_nodes hasChildNodes].
    rewrite fold_left_concat. cbn [app].
    induction IH as [|x l Hx _ IHl]; [reflexivity|].
    cbn [flat_map]. rewrite List.filter_app, map_app, <- IHl, Hx.
    reflexivity.
Qed.

Lemma extracted_per_spec_not_blank (body : node) :
  Forall (fun s => s <> [] /\ entirely_whitespace s = false)
         (extracted_per_spec body).
Proof.
  unfold extracted_per_spec. apply Forall_map, Forall_forall.
  intros t Ht. apply list_elem_of_In, filter_In in Ht as [_ Ht].
  apply negb_true_iff in Ht.
  assert (Js.trim t <> []) as Hne.
  { intros E. apply strip_with_nil in E. unfold entirely_whitespace in Ht.
    congruence. }
  split; [exact Hne|]. by apply strip_with_not_blank.
Qed.

(** C8. On every document tree the Text Extractor returns, in depth-first
    pre-order, the trimmed content of each childless text node that is not
    entirely whitespace, one string per such node; no string of the output
    is empty or made of whitespace only; a childless node that is not a text
    node contributes nothing. *)
Theorem text_extractor_leaf_texts (body : node) :
  getAllLeafNodesText body = extracted_per_spec body
  /\ Forall (fun s => s <> [] /\ entirely_whitespace s = false)
            (getAllLeafNodesText body)
  /\ (forall nodeType textContent,
         nodeType <> Js.TEXT_NODE ->
         getAllLeafNodesText (Node nodeType textContent []) = []).
Proof.
  split; [apply getAllLeafNodesText_per_spec|].
  split.
  - rewrite getAllLeafNodesText_per_spec. apply extracted_per_spec_not_blank.
  - intros ty txt Hty. simpl.
    destruct (N.eqb_spec ty Js.TEXT_NODE) as [E|_]; [contradiction|].
    reflexivity.
Qed.

(** ** Batch Classifier *)

Lemma inference_loop_chunks (batch_size : nat) (names : list str)
    (model : classifier) (starts : list nat) (acc : list str) :
  inference_loop batch_size names model starts acc =
  (rest <- classify_chunks model
             (map (fun i => slice names i (i + batch_size)) starts) ;;
   Ok (acc ++ rest)).
Proof.
  revert acc. induction starts as [|i starts IH]; intros acc; simpl.
  - by rewrite app_nil_r.
  - unfold classify_chunk.
    destruct (model (slice names i (i + batch_size))) as [labels|e]; simpl;
      [|reflexivity].
    destruct (positives _ labels) as [found|e]; simpl; [|reflexivity].
    rewrite IH.
    destruct (classify_chunks model _) as [rest|e]; simpl; [|reflexivity].
    by rewrite app_assoc.
Qed.

Lemma model_inference_with_chunks (batch_size : nat) (names : list str)
    (model : classifier) :
  1 <= batch_size ->
  model_inference_with batch_size names model =
  classify_chunks model (batches batch_size names).
Proof.
  intros HB. unfold model_inference_with, range, batches.
  destruct (Nat.eqb_spec batch_size 0) as [->|_]; [lia|]. simpl.
  rewrite inference_loop_chunks.
  by destruct (classify_chunks model _).
Qed.

Lemma slice_take_drop {A : Type} (l : list A) (i n : nat) :
  slice l i (i + n) = take n (drop i l).
Proof. unfold slice. f_equal. lia. Qed.

(** The chunks are consecutive pieces of the list, from [i] on. *)
Lemma chunks_from (batch_size : nat) (names : list str) (fuel i : nat) :
  1 <= batch_size -> length names - i <= fuel ->
  let chunks := map (fun i => slice names i (i + batch_size))
                    (range_fuel fuel i (length names) batch_size) in
  concat chunks = drop i names
  /\ Forall (fun b => 1 <= length b <= batch_size) chunks.
Proof.
  intros HB. revert i. induction fuel as [|fuel IH]; intros i Hfuel; simpl.
  - split; [|constructor]. symmetry. apply drop_ge. lia.
  - destruct (Nat.ltb_spec i (length names)) as [Hlt|Hge]; simpl.
    + destruct (IH (i + batch_size)) as [IHc IHf]; [lia|]. split.
      * rewrite IHc, slice_take_drop, <- drop_drop. apply take_drop.
      * constructor; [|exact IHf].
        rewrite slice_take_drop, length_take, length_drop. lia.
    + split; [|constructor]. symmetry. apply drop_ge. lia.
Qed.

Lemma positives_at_itemwise (label : str -> Z) (batch pre rest : list str) :
  batch = pre ++ rest ->
  positives_at batch (map label batch) (seq (length pre) (length rest)) =
  Ok (List.filter (positive label) rest).
Proof.
  revert pre. induction rest as [|x rest IH]; intros pre ->; [reflexivity|].
  cbn [length seq positives_at].
  rewrite nth_error_map, nth_error_app2, Nat.sub_diag by lia.
  cbn [nth_error option_map List.filter]. unfold positive at 1.
  specialize (IH (pre ++ [x])).
  rewrite length_app, Nat.add_1_r, <- app_assoc in IH.
  specialize (IH eq_refl). cbn [app] in IH.
  destruct (label x =? 0)%Z; cbn [negb]; [exact IH|].
  rewrite IH. reflexivity.
Qed.

Lemma classify_chunk_itemwise (model : classifier) (label : str -> Z)
    (batch : list str) :
  itemwise model label ->
  classify_chunk model batch = Ok (List.filter (positive label) batch).
Proof.
  intros H. unfold classify_chunk, positives. rewrite H. simpl.
  apply (positives_at_itemwise label batch [] batch eq_refl).
Qed.

Lemma classify_chunks_itemwise (model : classifier) (label : str -> Z)
    (chunks : list (list str)) :
  itemwise model label ->
  classify_chunks model chunks = Ok (List.filter (positive label) (concat chunks)).
Proof.
  intros H. induction chunks as [|b chunks IH]; [reflexivity|].
  simpl. rewrite (classify_chunk_itemwise _ _ _ H), IH. simpl.
  by rewrite List.filter_app.
Qed.

Lemma filter_sublist {A : Type} (f : A -> bool) (l : list A) :
  List.filter f l `sublist_of` l.
Proof.
  induction l as [|x l IH]; simpl; [constructor|].
  destruct (f x); [by apply sublist_skip | by apply sublist_cons].
Qed.

(** C3, amended.  For a batch size of at least one, [model_inference]
    classifies the consecutive chunks that [batches] cuts, each of one to
    [batch_size] items that together make up the list, and concatenates
    their positives.  With a model that labels every item by itself,
    whatever batch it comes in, the result is the same as classifying the
    whole list as one chunk: the candidates with a positive label, in their
    order, whatever the batch size.  An empty list yields an empty result
    and no chunk is handed to the model, whatever the model. *)
Theorem batch_classifier_chunking (model : classifier) (label : str -> Z)
    (names : list str) (batch_size : nat) :
  itemwise model label -> 1 <= batch_size ->
  model_inference_with batch_size names model =
    classify_chunks model (batches batch_size names)
  /\ concat (batches batch_size names) = names
  /\ Forall (fun b => 1 <= length b <= batch_size) (batches batch_size names)
  /\ model_inference_with batch_size names model = classify_chunk model names
  /\ model_inference_with batch_size names model =
       Ok (List.filter (positive label) names)
  /\ List.filter (positive label) names `sublist_of` names
  /\ model_inference names model = model_inference_with batch_size names model
  /\ batches batch_size [] = []
  /\ (forall any_model, model_inference_with batch_size [] any_model = Ok []).
Proof.
  intros Hm HB.
  destruct (chunks_from batch_size names (length names) 0 HB) as [Hc Hf];
    [lia|].
  assert (forall B, 1 <= B ->
            model_inference_with B names model =
            Ok (List.filter (positive label) names)) as Hall.
  { intros B HB'. rewrite model_inference_with_chunks by exact HB'.
    rewrite (classify_chunks_itemwise _ _ _ Hm).
    destruct (chunks_from B names (length names) 0 HB') as [Hc' _]; [lia|].
    unfold batches. by rewrite Hc'. }
  split; [by apply model_inference_with_chunks|].
  split; [exact Hc|].
  split; [exact Hf|].
  split; [by rewrite Hall, (classify_chunk_itemwise _ _ _ Hm)|].
  split; [by apply Hall|].
  split; [apply filter_sublist|].
  split; [unfold model_inference; rewrite !Hall; unfold BATCH_SIZE; [done|lia..]|].
  split; [reflexivity|].
  intros any_model. by rewrite model_inference_with_chunks.
Qed.

(** ** Page Scraper *)

Lemma scrape_attempt_fails (u : str) (driver : webdriver) (model : classifier)
    (e : exn) :
  fails_with (driver u) e -> scrape_attempt u driver model = Raise e.
Proof.
  unfold scrape_attempt, get_all_leaf_nodes_text.
  intros [H1|H1 H2|H1 H2 H3]; rewrite H1; simpl; try rewrite H2; simpl;
    try rewrite H3; reflexivity.
Qed.

Lemma scrape_product_names_catches (u : str) (driver : webdriver)
    (model : classifier) (e : exn) :
  is_WebDriverException e = true ->
  scrape_attempt u driver model = Raise e ->
  exists record,
    scrape_product_names u driver model
    = ([info_processing_url u; record], Ok None)
    /\ (record = error_encountered e \/ record = error_webdriver u e).
Proof.
  intros He Ha. unfold scrape_product_names. rewrite Ha.
  destruct (is_Timeout_or_Stale e); [eauto|]. rewrite He. eauto.
Qed.

(** What leaves the scraper is not a browser error. *)
Lemma scrape_product_names_raises (u : str) (driver : webdriver)
    (model : classifier) (e : exn) :
  snd (scrape_product_names u driver model) = Raise e ->
  is_WebDriverException e = false /\ scrape_attempt u driver model = Raise e.
Proof.
  unfold scrape_product_names.
  destruct (scrape_attempt u driver model) as [names|e']; [discriminate|].
  destruct (is_Timeout_or_Stale e'); [discriminate|].
  destruct (is_WebDriverException e') eqn:E; [discriminate|].
  simpl. intros [= <-]. auto.
Qed.

(** The handlers of the Page Scraper.  When navigation, the wait for the
    body or the extraction of the text raises a browser-automation error (a
    [WebDriverException], which includes timeouts and stale references), the
    error is logged and the function ends without a [return], so that the
    caller receives [None]; and no browser-automation error ever leaves the
    Page Scraper. *)
Theorem page_scraper_catches_browser_errors (u : str) (driver : webdriver)
    (model : classifier) (e : exn) :
  is_WebDriverException e = true ->
  fails_with (driver u) e ->
  snd (scrape_product_names u driver model) = Ok None
  /\ (In (error_encountered e) (fst (scrape_product_names u driver model))
      \/ In (error_webdriver u e) (fst (scrape_product_names u driver model)))
  /\ (forall u' driver' model' e',
         snd (scrape_product_names u' driver' model') = Raise e' ->
         is_WebDriverException e' = false).
Proof.
  intros He Hf. apply (scrape_attempt_fails _ _ model) in Hf.
  destruct (scrape_product_names_catches _ _ _ _ He Hf) as (r & -> & Hr).
  split; [reflexivity|]. split.
  - destruct Hr as [-> | ->]; simpl; auto.
  - intros u' d' m' e' H. apply scrape_product_names_raises in H as [H _].
    exact H.
Qed.

(** ** Run Orchestrator *)

#[local] Opaque lit.

Lemma write_spec (out : path) (data : str) (st : run_state) (c : str) :
  files st !! out = Some c ->
  write out data st =
  {| files := <[out := c ++ data]> (files st);
     log := log st; progress := progress st |}.
Proof. intros H. unfold write. by rewrite H. Qed.

Lemma writelines_spec (out : path) (lines : list str) (st : run_state)
    (c : str) :
  files st !! out = Some c ->
  writelines out lines st =
  {| files := <[out := c ++ concat lines]> (files st);
     log := log st; progress := progress st |}.
Proof.
  unfold writelines. revert st c.
  induction lines as [|l lines IH]; intros st c H; simpl.
  - rewrite app_nil_r, insert_id by exact H. by destruct st.
  - rewrite (IH _ (c ++ l)).
    + rewrite (write_spec _ _ _ _ H). simpl.
      by rewrite insert_insert_eq, app_assoc.
    + rewrite (write_spec _ _ _ _ H). simpl. apply lookup_insert_eq.
Qed.

#[local] Opaque writelines.

Lemma process_url_spec (out : path) (total i : nat) (u : str)
    (driver : webdriver) (model : classifier) (st : run_state) (c : str) :
  files st !! out = Some c ->
  let r := snd (scrape_product_names u driver model) in
  let res := process_url out total i u driver model st in
  files (fst res) = <[out := c ++ block_of u r]> (files st)
  /\ log (fst res) = log st ++ fst (scrape_product_names u driver model)
  /\ match r with
     | Ok _ => snd res = None
               /\ progress (fst res) = progress st ++ [(i + 1, total)]
     | Raise e => snd res = Some e /\ progress (fst res) = progress st
     end.
Proof.
  intros H. unfold process_url.
  pose proof (scrape_product_names_raises u driver model) as Hraise.
  destruct (scrape_product_names u driver model) as [records r]. simpl in *.
  destruct r as [[[|name names]|]|e]; simpl.
  - rewrite app_nil_r, insert_id by exact H. auto.
  - rewrite (write_spec _ _ (logging records st) c) by exact H.
    rewrite (writelines_spec _ _ _ (c ++ [LF] ++ lit "URL: " ++ u ++ [LF]))
      by apply lookup_insert_eq.
    cbn [fst snd files log progress report logging default from_option id].
    rewrite insert_insert_eq. unfold block.
    repeat split; try reflexivity. f_equal.
    rewrite <- !app_assoc. reflexivity.
  - rewrite app_nil_r, insert_id by exact H. auto.
  - destruct (Hraise e eq_refl) as [-> _]. simpl.
    rewrite app_nil_r, insert_id by exact H. auto.
Qed.

(** The loop from any state: [k] URLs are completed, their blocks are
    appended to the output file and nothing else changes in the file
    system; the loop ends normally after the last URL, or stops at the URL
    whose scrape raises. *)
Lemma for_urls_spec (out : path) (total : nat) (drivers : nat -> webdriver)
    (model : classifier) (urls : list str) :
  forall (i : nat) (st : run_state) (c : str),
    files st !! out = Some c ->
    let res := for_urls out total i urls drivers model st in
    exists k,
      k <= length urls
      /\ files (fst res)
         = <[out := c ++ artifact_per_spec drivers model i (take k urls)]>
             (files st)
      /\ progress (fst res)
         = progress st ++ map (fun j => (j + 1, total)) (seq i k)
      /\ match snd res with
         | None =>
             k = length urls
             /\ log (fst res) = log st ++ records_per_spec drivers model i urls
         | Some e =>
             exists u, urls !! k = Some u
                       /\ snd (scrape_product_names u (drivers (i + k)) model)
                          = Raise e
         end.
Proof.
  induction urls as [|u urls IH]; intros i st c H.
  - exists 0. simpl. rewrite !app_nil_r, insert_id by exact H. auto.
  - cbn [for_urls].
    destruct (process_url_spec out total i u (drivers i) model st c H)
      as (Hf & Hl & Hr).
    destruct (process_url out total i u (drivers i) model st) as [st' exc].
    cbn [fst snd] in *.
    destruct (snd (scrape_product_names u (drivers i) model)) as [names|e]
      eqn:Er.
    + destruct Hr as [-> Hp].
      assert (files st' !! out = Some (c ++ block_of u (Ok names))) as H'
        by (rewrite Hf; apply lookup_insert_eq).
      destruct (IH (S i) st' _ H') as (k & Hk & Hfk & Hpk & Hend).
      exists (S k). split; [simpl; lia|].
      split.
      { rewrite Hfk, Hf, insert_insert_eq. cbn [take artifact_per_spec].
        by rewrite Er, app_assoc. }
      split.
      { rewrite Hpk, Hp, <- app_assoc. reflexivity. }
      destruct (snd (for_urls out total (S i) urls drivers model st')).
      * destruct Hend as (u' & Hu' & He). exists u'.
        split; [exact Hu'|]. by rewrite Nat.add_succ_r.
      * destruct Hend as [-> Hlog]. split; [reflexivity|].
        rewrite Hlog, Hl, <- app_assoc. reflexivity.
    + destruct Hr as [-> Hp]. exists 0. cbn [fst snd].
      split; [simpl; lia|].
      split; [by rewrite Hf|].
      split; [by rewrite Hp, app_nil_r|].
      exists u. by rewrite Nat.add_0_r.
Qed.

Lemma visited_scrape (u : str) (driver : webdriver) (model : classifier) :
  visited (fst (scrape_product_names u driver model)) = [u].
Proof.
  unfold scrape_product_names.
  destruct (scrape_attempt u driver model) as [names|e]; [reflexivity|].
  destruct (is_Timeout_or_Stale e); [reflexivity|].
  by destruct (is_WebDriverException e).
Qed.

Lemma visited_records (drivers : nat -> webdriver) (model : classifier)
    (urls : list str) (i : nat) :
  visited (records_per_spec drivers model i urls) = urls.
Proof.
  revert i. induction urls as [|u urls IH]; intros i; [reflexivity|].
  unfold visited in *. cbn [records_per_spec].
  rewrite List.flat_map_app, IH.
  pose proof (visited_scrape u (drivers i) model) as Hv.
  unfold visited in Hv. by rewrite Hv.
Qed.

Lemma records_per_spec_In (drivers : nat -> webdriver) (model : classifier)
    (urls : list str) (i j : nat) (u : str) (r : log_record) :
  urls !! j = Some u ->
  In r (fst (scrape_product_names u (drivers (i + j)) model)) ->
  In r (records_per_spec drivers model i urls).
Proof.
  revert i j. induction urls as [|u' urls IH]; intros i j Hu Hr;
    [discriminate|].
  cbn [records_per_spec]. apply in_or_app. destruct j as [|j].
  - injection Hu as ->. rewrite Nat.add_0_r in Hr. by left.
  - right. apply (IH (S i) j); [exact Hu|].
    by rewrite Nat.add_succ_r in Hr.
Qed.

(** A run whose output file has been opened: the file is there and empty
    when the URL list is read, and the loop starts in that state. *)
Lemma produce_output_opened (URLS_FILE OUTPUT_FILE_NAME : path)
    (os : operating_system) (drivers : nat -> webdriver) (model : classifier)
    (fs : filesystem) :
  let out := os_path_join output_directory OUTPUT_FILE_NAME in
  output_failure os OUTPUT_FILE_NAME = None ->
  produce_output URLS_FILE OUTPUT_FILE_NAME os drivers model fs
  = match (<[out := []]> fs) !! URLS_FILE with
    | None => ({| files := <[out := []]> fs; log := []; progress := [] |},
               Some (PyException "FileNotFoundError"))
    | Some text =>
        for_urls out (length (read_urls text)) 0 (read_urls text) drivers model
          {| files := <[out := []]> fs; log := []; progress := [] |}
    end.
Proof.
  intros out Ho. unfold output_failure in Ho. unfold produce_output.
  destruct (os_makedirs os output_directory); [discriminate|].
  fold out in Ho |- *. rewrite Ho. reflexivity.
Qed.

(** A run that cannot make the directory or open the output file ends with
    that exception and has written nothing. *)
Lemma produce_output_not_opened (URLS_FILE OUTPUT_FILE_NAME : path)
    (os : operating_system) (drivers : nat -> webdriver) (model : classifier)
    (fs : filesystem) (e : exn) :
  output_failure os OUTPUT_FILE_NAME = Some e ->
  produce_output URLS_FILE OUTPUT_FILE_NAME os drivers model fs
  = ({| files := fs; log := []; progress := [] |}, Some e).
Proof.
  unfold output_failure, produce_output.
  destruct (os_makedirs os output_directory); [by intros [= ->]|].
  by intros ->.
Qed.

Lemma produce_output_unfold (URLS_FILE OUTPUT_FILE_NAME : path)
    (os : operating_system) (drivers : nat -> webdriver) (model : classifier)
    (fs : filesystem) (text : str) :
  let out := os_path_join output_directory OUTPUT_FILE_NAME in
  output_failure os OUTPUT_FILE_NAME = None ->
  (<[out := []]> fs) !! URLS_FILE = Some text ->
  produce_output URLS_FILE OUTPUT_FILE_NAME os drivers model fs
  = for_urls out (length (read_urls text)) 0 (read_urls text) drivers model
      {| files := <[out := []]> fs; log := []; progress := [] |}.
Proof.
  intros out Ho Hu. rewrite produce_output_opened by exact Ho.
  fold out. by rewrite Hu.
Qed.


(** C1, amended.  When every exception that a scrape of this run raises is a
    browser-automation error ([WebDriverException] or one of its
    subclasses), the run ends normally: every URL of the list is scraped
    exactly once, in order, progress is reported after each, each failure is
    logged, and the artifact holds the block of every URL whose scrape
    returned names.  The run is one that has opened its output file and
    read its URL list. *)
Theorem orchestrator_isolates_browser_errors (URLS_FILE OUTPUT_FILE_NAME : path)
    (os : operating_system) (drivers : nat -> webdriver) (model : classifier)
    (fs : filesystem) (text : str) :
  let out := os_path_join output_directory OUTPUT_FILE_NAME in
  let urls := read_urls text in
  output_failure os OUTPUT_FILE_NAME = None ->
  (<[out := []]> fs) !! URLS_FILE = Some text ->
  (forall i u e, urls !! i = Some u ->
                 scrape_attempt u (drivers i) model = Raise e ->
                 is_WebDriverException e = true) ->
  let res := produce_output URLS_FILE OUTPUT_FILE_NAME os drivers model fs in
  snd res = None
  /\ visited (log (fst res)) = urls
  /\ progress (fst res)
     = map (fun j => (j + 1, length urls)) (seq 0 (length urls))
  /\ files (fst res) !! out = Some (artifact_per_spec drivers model 0 urls)
  /\ (forall i u e, urls !! i = Some u ->
                    scrape_attempt u (drivers i) model = Raise e ->
                    In (error_encountered e) (log (fst res))
                    \/ In (error_webdriver u e) (log (fst res))).
Proof.
  intros out urls Ho Hu Hwd res. subst res.
  rewrite (produce_output_unfold _ _ _ _ _ _ _ Ho Hu). fold out urls.
  set (st0 := {| files := <[out := []]> fs; log := []; progress := [] |}).
  destruct (for_urls_spec out (length urls) drivers model urls 0 st0 []
              (lookup_insert_eq _ _ _))
    as (k & Hk & Hf & Hp & Hend).
  set (res := for_urls _ _ _ _ _ _ _) in *.
  destruct (snd res) as [e|].
  { destruct Hend as (u & Hk' & He).
    apply scrape_product_names_raises in He as [Hno Ha].
    rewrite (Hwd _ _ _ Hk' Ha) in Hno. discriminate. }
  destruct Hend as [-> Hlog]. rewrite firstn_all in Hf.
  split; [reflexivity|].
  split; [rewrite Hlog; apply visited_records|].
  split; [exact Hp|].
  split; [rewrite Hf; apply lookup_insert_eq|].
  intros i u e Hi Ha. rewrite Hlog. cbn [log st0 app].
  destruct (scrape_product_names_catches u (drivers i) model e
              (Hwd _ _ _ Hi Ha) Ha) as (r & Hs & Hr).
  assert (In r (records_per_spec drivers model 0 urls)) as Hin.
  { apply (records_per_spec_In _ _ _ 0 i u); [exact Hi|].
    cbn [Nat.add]. rewrite Hs. simpl. auto. }
  destruct Hr as [-> | ->]; auto.
Qed.

(** C10.  The run opens the output file for writing before anything else:
    what the path held before has no influence on the run, the run changes
    no other file, and the file is there and empty even when the URL list
    cannot be opened.  From then on every iteration, and every stretch of
    the loop, leaves the file as it was with something appended, and every
    other file as it was.  A run that cannot make the directory or open the
    file ends with that exception before any URL is processed and leaves
    every file, the one at the path too, as it was. *)
Theorem output_file_truncated_then_appended (URLS_FILE OUTPUT_FILE_NAME : path)
    (os : operating_system) (drivers : nat -> webdriver) (model : classifier)
    (fs : filesystem) :
  let out := os_path_join output_directory OUTPUT_FILE_NAME in
  let run := produce_output URLS_FILE OUTPUT_FILE_NAME os drivers model in
  match output_failure os OUTPUT_FILE_NAME with
  | None =>
      (forall old, run (<[out := old]> fs) = run fs)
      /\ (exists written, files (fst (run fs)) = <[out := written]> fs)
      /\ ((<[out := []]> fs) !! URLS_FILE = None ->
          run fs
          = ({| files := <[out := []]> fs; log := []; progress := [] |},
             Some (PyException "FileNotFoundError")))
  | Some e => run fs = ({| files := fs; log := []; progress := [] |}, Some e)
  end
  /\ (forall total i u driver st c,
         files st !! out = Some c ->
         exists extra,
           files (fst (process_url out total i u driver model st))
           = <[out := c ++ extra]> (files st))
  /\ (forall total i urls st c,
         files st !! out = Some c ->
         exists extra,
           files (fst (for_urls out total i urls drivers model st))
           = <[out := c ++ extra]> (files st)).
Proof.
  intros out run. subst run. split; [|split].
  - destruct (output_failure os OUTPUT_FILE_NAME) as [e|] eqn:Ho;
      [by apply produce_output_not_opened|].
    split; [|split].
    + intros old. rewrite !produce_output_opened by exact Ho. fold out.
      by rewrite insert_insert_eq.
    + rewrite produce_output_opened by exact Ho. fold out.
      destruct ((<[out := []]> fs) !! URLS_FILE) as [text|]; [|by exists []].
      set (st0 := {| files := <[out := []]> fs; log := []; progress := [] |}).
      destruct (for_urls_spec out (length (read_urls text)) drivers model
                  (read_urls text) 0 st0 [] (lookup_insert_eq _ _ _))
        as (k & _ & Hf & _).
      eexists. rewrite Hf. cbn [files st0]. by rewrite insert_insert_eq.
    + intros Hnone. rewrite produce_output_opened by exact Ho. fold out.
      by rewrite Hnone.
  - intros total i u driver st c H.
    destruct (process_url_spec out total i u driver model st c H) as [Hf _].
    eauto.
  - intros total i urls st c H.
    destruct (for_urls_spec out total drivers model urls i st c H)
      as (k & _ & Hf & _).
    eauto.
Qed.

#[local] Transparent lit writelines.

(** ** A run of the specification's scenario *)

Example demo_run :
  let res := produce_output "urls.csv" "out.txt" demo_os
               (fun _ => demo_driver) demo_model demo_fs in
  snd res = None
  /\ files (fst res) !! demo_out
     = Some ([LF] ++ lit "URL: siteA.com" ++ [LF]
             ++ lit "Oak Chair" ++ [LF] ++ lit "Lamp" ++ [LF])
  /\ progress (fst res) = [(1, 2); (2, 2)]
  /\ log (fst res) = [info_processing_url siteA; info_processing_url siteB;
                      error_encountered TimeoutException].
Proof. vm_compute. auto. Qed.

(** C1, as stated, fails: an exception that is not a browser error leaves
    the scraper and the orchestrator; the run stops at the first URL, the
    second URL is never scraped and its block is missing from the artifact
    although its scrape returns a name. *)
Lemma orchestrator_aborts_on_other_exception :
  let res := produce_output "urls.csv" "out.txt" demo_os
               (fun _ => crash_driver) crash_model demo_fs in
  snd res = Some (PyException "RuntimeError")
  /\ visited (log (fst res)) = [siteA]
  /\ progress (fst res) = []
  /\ files (fst res) !! demo_out = Some []
  /\ snd (scrape_product_names siteB crash_driver crash_model)
     = Ok (Some [lit "Lamp"]).
Proof. vm_compute. auto 6. Qed.

(** C2, at a navigation timeout.  The handler logs the error and the
    function ends without a [return]: the caller receives [None] where the
    claim, and the [Returns: list] of the function's own docstring, have an
    empty list. *)
Lemma page_scraper_returns_None_on_timeout :
  snd (scrape_product_names siteB demo_driver demo_model) = Ok None
  /\ snd (scrape_product_names siteB demo_driver demo_model) <> Ok (Some []).
Proof. split; [reflexivity | discriminate]. Qed.

Lemma page_scraper_catches_browser_errors_witness :
  is_WebDriverException TimeoutException = true
  /\ fails_with (demo_driver siteB) TimeoutException
  /\ snd (scrape_product_names siteB demo_driver demo_model) = Ok None.
Proof.
  assert (fails_with (demo_driver siteB) TimeoutException) as Hf
    by (apply fails_navigate; reflexivity).
  split; [reflexivity|]. split; [exact Hf|].
  exact (proj1 (page_scraper_catches_browser_errors siteB demo_driver
                  demo_model TimeoutException eq_refl Hf)).
Defined.

Lemma batch_classifier_chunking_witness :
  itemwise demo_model demo_label
  /\ 1 <= 2
  /\ model_inference_with 2 [lit "Oak Chair"; lit "Welcome"; lit "Lamp"]
       demo_model
     = classify_chunk demo_model [lit "Oak Chair"; lit "Welcome"; lit "Lamp"].
Proof.
  assert (itemwise demo_model demo_label) as Hm by (intros batch; reflexivity).
  assert (1 <= 2) as HB by lia.
  split; [exact Hm|]. split; [exact HB|].
  exact (proj1 (proj2 (proj2 (proj2
    (batch_classifier_chunking demo_model demo_label
       [lit "Oak Chair"; lit "Welcome"; lit "Lamp"] 2 Hm HB))))).
Defined.

(** C3, as stated, fails: with a classifier whose labels depend on the
    batch, the chunk boundaries change the result.  Of the candidates [a],
    [bb] and [c] in chunks of two, [bb] is the longest of its chunk and so
    is [c]; in one chunk only [bb] is. *)
Lemma batch_classifier_depends_on_chunks :
  batches 2 [lit "a"; lit "bb"; lit "c"] = [[lit "a"; lit "bb"]; [lit "c"]]
  /\ model_inference_with 2 [lit "a"; lit "bb"; lit "c"] padding_model
     = Ok [lit "bb"; lit "c"]
  /\ classify_chunk padding_model [lit "a"; lit "bb"; lit "c"]
     = Ok [lit "bb"].
Proof. vm_compute. auto. Qed.

Lemma demo_urls : read_urls (siteA ++ [LF] ++ siteB ++ [LF]) = [siteA; siteB].
Proof. reflexivity. Qed.

Lemma demo_urls_file :
  (<[demo_out := []]> demo_fs) !! "urls.csv"%string
  = Some (siteA ++ [LF] ++ siteB ++ [LF]).
Proof. reflexivity. Qed.

Lemma demo_only_browser_errors (i : nat) (u : str) (e : exn) :
  read_urls (siteA ++ [LF] ++ siteB ++ [LF]) !! i = Some u ->
  scrape_attempt u demo_driver demo_model = Raise e ->
  is_WebDriverException e = true.
Proof.
  rewrite demo_urls. destruct i as [|[|i]]; [| |discriminate].
  - intros [= <-]. vm_compute. discriminate.
  - intros [= <-]. vm_compute. by intros [= <-].
Qed.

Lemma demo_output_opens : output_failure demo_os "out.txt" = None.
Proof. reflexivity. Qed.

Lemma orchestrator_isolates_browser_errors_witness :
  output_failure demo_os "out.txt" = None
  /\ (<[demo_out := []]> demo_fs) !! "urls.csv"%string
     = Some (siteA ++ [LF] ++ siteB ++ [LF])
  /\ snd (produce_output "urls.csv" "out.txt" demo_os
            (fun _ => demo_driver) demo_model demo_fs) = None.
Proof.
  split; [exact demo_output_opens|]. split; [exact demo_urls_file|].
  exact (proj1 (orchestrator_isolates_browser_errors "urls.csv" "out.txt"
                  demo_os (fun _ => demo_driver) demo_model demo_fs
                  (siteA ++ [LF] ++ siteB ++ [LF]) demo_output_opens
                  demo_urls_file demo_only_browser_errors)).
Defined.

(** ** Search Indexer *)

Lemma partition_startswith (sep s : str) :
  Py.startswith sep s = true ->
  Py.partition sep s = Some ([], drop (length sep) s).
Proof. intros H. destruct s; simpl; by rewrite H. Qed.

Lemma partition_cons_skip (sep : str) (c : char) (s : str) :
  Py.startswith sep (c :: s) = false ->
  Py.partition sep (c :: s) =
  match Py.partition sep s with
  | Some (before, after) => Some (c :: before, after)
  | None => None
  end.
Proof. intros H. cbn [Py.partition]. by rewrite H. Qed.

Lemma split_sep_fuel_step (fuel : nat) (sep s : str) :
  Py.split_sep_fuel (S fuel) sep s =
  match Py.partition sep s with
  | None => [s]
  | Some (before, after) => before :: Py.split_sep_fuel fuel sep after
  end.
Proof. reflexivity. Qed.

(** The subscript [[1]] never fails on a marker line. *)
Lemma marker_line_second_piece (line : str) :
  Py.startswith MARKER line = true ->
  nth_error (Py.split_sep MARKER line) 1 =
  Some match Py.partition MARKER (drop 4 line) with
       | Some (before, _) => before
       | None => drop 4 line
       end.
Proof.
  intros H. unfold Py.split_sep.
  rewrite split_sep_fuel_step, (partition_startswith _ _ H).
  destruct line as [|c line]; [discriminate|].
  cbn [length nth_error]. rewrite split_sep_fuel_step.
  change (length MARKER) with 4.
  by destruct (Py.partition MARKER (drop 4 (c :: line))) as [[b a]|].
Qed.

Lemma index_line_effect (current_url : str) (added : list document)
    (line : str) :
  index_line (current_url, added) line =
  Ok (fst (line_effect current_url line),
      added ++ snd (line_effect current_url line)).
Proof.
  unfold index_line, line_effect, url_of_marker_line.
  destruct (Py.startswith MARKER (Py.strip line)) eqn:Hm.
  - rewrite (marker_line_second_piece _ Hm). simpl. by rewrite app_nil_r.
  - destruct (Py.truthy (Py.strip line)); simpl; [reflexivity|].
    by rewrite app_nil_r.
Qed.

(** The loop over the lines never raises. *)
Lemma index_lines_documents (lines : list str) :
  forall current_url added,
    exists final_url,
      index_lines lines (current_url, added) =
      Ok (final_url, added ++ documents_from current_url lines).
Proof.
  induction lines as [|line lines IH]; intros cur added;
    cbn [index_lines documents_from].
  - exists cur. by rewrite app_nil_r.
  - rewrite index_line_effect. cbn [bind].
    destruct (IH (fst (line_effect cur line))
                 (added ++ snd (line_effect cur line))) as [final ->].
    exists final. by rewrite app_assoc.
Qed.

Lemma add_data_to_index_documents (index : list document) (fs : filesystem)
    (file_path : path) (text : str) :
  fs !! file_path = Some text ->
  add_data_to_index index fs file_path =
  index ++ documents_from [] (Py.iter_file text).
Proof.
  intros H. unfold add_data_to_index. rewrite H.
  destruct (index_lines_documents (Py.iter_file text) [] []) as [final ->].
  reflexivity.
Qed.

Lemma documents_from_app (lines1 lines2 : list str) :
  forall current_url,
    (forall line, In line lines1 ->
                  Py.startswith MARKER (Py.strip line) = false) ->
    documents_from current_url (lines1 ++ lines2) =
    map (fun line => {| url := current_url; content := Py.strip line |})
        (List.filter (fun line => Py.truthy (Py.strip line)) lines1)
    ++ documents_from current_url lines2.
Proof.
  induction lines1 as [|line lines1 IH]; intros cur Hno; [reflexivity|].
  cbn [app documents_from List.filter]. unfold line_effect at 1 2.
  rewrite (Hno line) by (by left).
  rewrite IH by (intros l Hl; apply Hno; by right).
  by destruct (Py.truthy (Py.strip line)).
Qed.

(** C9.  The cursor starts as the empty string: every non-blank line that
    comes before the first marker line of the file is indexed as a document
    whose url field is the empty string and whose content is the stripped
    line. *)
Theorem content_before_marker_has_empty_url (index : list document)
    (fs : filesystem) (file_path : path) (text : str)
    (before rest : list str) :
  fs !! file_path = Some text ->
  Py.iter_file text = before ++ rest ->
  (forall line, In line before ->
                Py.startswith MARKER (Py.strip line) = false) ->
  add_data_to_index index fs file_path =
  index
  ++ map (fun line => {| url := []; content := Py.strip line |})
         (List.filter (fun line => Py.truthy (Py.strip line)) before)
  ++ documents_from [] rest.
Proof.
  intros Hf Hl Hno.
  rewrite (add_data_to_index_documents _ _ _ _ Hf), Hl.
  by rewrite documents_from_app.
Qed.

(** *** Reading back what the pipeline wrote *)

Lemma universal_newlines_line (s rest : str) :
  no_newline s = true ->
  Py.universal_newlines (s ++ LF :: rest) = s ++ LF :: Py.universal_newlines rest.
Proof.
  induction s as [|c s IH]; intros H; [reflexivity|].
  cbn [no_newline forallb] in H.
  apply andb_prop in H as [Hc Hs]. apply andb_prop in Hc as [_ Hc].
  apply negb_true_iff in Hc.
  cbn [app Py.universal_newlines]. rewrite Hc. f_equal. by apply IH.
Qed.

Lemma lines_keepends_line (s rest : str) :
  no_newline s = true ->
  Py.lines_keepends (s ++ LF :: rest) = (s ++ [LF]) :: Py.lines_keepends rest.
Proof.
  induction s as [|c s IH]; intros H; [reflexivity|].
  cbn [no_newline forallb] in H.
  apply andb_prop in H as [Hc Hs]. apply andb_prop in Hc as [Hc _].
  apply negb_true_iff in Hc.
  cbn [app Py.lines_keepends]. rewrite Hc, IH by exact Hs. reflexivity.
Qed.

Lemma iter_file_line (s rest : str) :
  no_newline s = true ->
  Py.iter_file (s ++ LF :: rest) = (s ++ [LF]) :: Py.iter_file rest.
Proof.
  intros H. unfold Py.iter_file.
  by rewrite universal_newlines_line, lines_keepends_line.
Qed.

Lemma iter_file_names (names : list str) (rest : str) :
  Forall (fun n => no_newline n = true) names ->
  Py.iter_file (concat (map (fun n => n ++ [LF]) names) ++ rest) =
  map (fun n => n ++ [LF]) names ++ Py.iter_file rest.
Proof.
  induction 1 as [|n names Hn _ IH]; [reflexivity|].
  cbn [map concat app]. rewrite <- !app_assoc. cbn [app].
  rewrite iter_file_line by exact Hn. by rewrite IH.
Qed.

Lemma iter_file_block (u : str) (names : list str) (rest : str) :
  no_newline u = true ->
  Forall (fun n => no_newline n = true) names ->
  Py.iter_file (block u names ++ rest) =
  [LF] :: (lit "URL: " ++ u ++ [LF])
       :: map (fun n => n ++ [LF]) names ++ Py.iter_file rest.
Proof.
  intros Hu Hn.
  assert (block u names ++ rest
          = [] ++ LF :: (lit "URL: " ++ u)
                 ++ LF :: concat (map (fun n => n ++ [LF]) names) ++ rest)
    as -> by (unfold block; rewrite <- !app_assoc; reflexivity).
  rewrite (iter_file_line [] _ eq_refl).
  rewrite iter_file_line by exact Hu.
  rewrite iter_file_names by exact Hn.
  by rewrite <- app_assoc.
Qed.

Lemma strip_line (s : str) : Py.strip (s ++ [LF]) = Py.strip s.
Proof. by apply strip_with_snoc. Qed.

Lemma blank_line_effect (current_url : str) :
  line_effect current_url [LF] = (current_url, []).
Proof. reflexivity. Qed.

Lemma name_line_effect (current_url n : str) :
  Py.strip n = n -> n <> [] -> Py.startswith MARKER n = false ->
  line_effect current_url (n ++ [LF])
  = (current_url, [{| url := current_url; content := n |}]).
Proof.
  intros Hs Hne Hm. unfold line_effect. rewrite strip_line, Hs, Hm.
  by destruct n.
Qed.

Lemma marker_line_effect (current_url u : str) :
  Py.strip u = u -> Py.partition MARKER u = None ->
  line_effect current_url (lit "URL: " ++ u ++ [LF]) = (u, []).
Proof.
  intros Hs Hp. unfold line_effect.
  rewrite app_assoc, strip_line.
  destruct u as [|c u]; [reflexivity|].
  destruct (strip_with_fixed _ _ Hs) as [_ Hr].
  assert (Py.strip (lit "URL: " ++ c :: u) = lit "URL: " ++ c :: u) as ->.
  { change (lit "URL: " ++ c :: u)
      with (85 :: 82 :: 76 :: 58 :: 32 :: c :: u)%N.
    unfold Py.strip, strip_with.
    rewrite (lstrip_with_fixed Py.isspace 85%N) by reflexivity.
    exact (rstrip_with_prepend Py.isspace [85; 82; 76; 58; 32]%N (c :: u)
             Hr ltac:(discriminate)). }
  change (Py.startswith MARKER (lit "URL: " ++ c :: u)) with true.
  cbv iota. f_equal. unfold url_of_marker_line.
  change (drop 4 (lit "URL: " ++ c :: u)) with (32%N :: c :: u).
  rewrite partition_cons_skip by reflexivity. rewrite Hp.
  change (Py.strip (32%N :: c :: u)) with (Py.strip (c :: u)). exact Hs.
Qed.

(** The documents of a block whose URL and names are plain. *)
Lemma documents_from_names (current_url : str) (names : list str)
    (lines : list str) :
  Forall plain_name names ->
  documents_from current_url (map (fun n => n ++ [LF]) names ++ lines) =
  map (fun n => {| url := current_url; content := n |}) names
  ++ documents_from current_url lines.
Proof.
  induction 1 as [|n names (_ & Hs & Hne & Hm) _ IH]; [reflexivity|].
  cbn [map app documents_from].
  rewrite (name_line_effect _ _ Hs Hne Hm). cbn [fst snd app].
  by rewrite IH.
Qed.

Lemma documents_from_block (current_url u : str) (names : list str)
    (rest : str) :
  plain_url u -> Forall plain_name names ->
  documents_from current_url (Py.iter_file (block u names ++ rest)) =
  map (fun n => {| url := u; content := n |}) names
  ++ documents_from u (Py.iter_file rest).
Proof.
  intros (Hl & Hs & Hp) Hn.
  rewrite iter_file_block;
    [|exact Hl | eapply Forall_impl; [exact Hn | by intros n (H & _)]].
  cbn [documents_from]. rewrite blank_line_effect. cbn [fst snd app].
  rewrite (marker_line_effect _ _ Hs Hp). cbn [fst snd app].
  by apply documents_from_names.
Qed.

(** C6, amended.  An artifact made of the block of URL [A] with the names
    [n1] and [n2] followed by the block of URL [B] with the name [n3] is
    indexed as exactly the three documents (A, n1), (A, n2), (B, n3), when
    the URLs are on one line, have no surrounding whitespace and do not
    contain the marker, and the names are not empty, are on one line, have
    no surrounding whitespace and do not start with the marker. *)
Theorem round_trip_two_blocks (fs : filesystem) (file_path : path)
    (A B n1 n2 n3 : str) :
  fs !! file_path = Some (block A [n1; n2] ++ block B [n3]) ->
  plain_url A -> plain_url B ->
  plain_name n1 -> plain_name n2 -> plain_name n3 ->
  add_data_to_index [] fs file_path =
  [ {| url := A; content := n1 |};
    {| url := A; content := n2 |};
    {| url := B; content := n3 |} ].
Proof.
  intros Hf HA HB H1 H2 H3.
  rewrite (add_data_to_index_documents _ _ _ _ Hf).
  rewrite (documents_from_block _ _ _ _ HA) by auto.
  rewrite <- (app_nil_r (block B [n3])).
  rewrite (documents_from_block _ _ _ _ HB) by auto.
  reflexivity.
Qed.

Lemma round_trip_two_blocks_witness :
  demo_artifact !! "out.txt"%string
  = Some (block (lit "A") [lit "n1"; lit "n2"] ++ block (lit "B") [lit "n3"])
  /\ plain_url (lit "A") /\ plain_url (lit "B")
  /\ plain_name (lit "n1") /\ plain_name (lit "n2") /\ plain_name (lit "n3")
  /\ add_data_to_index [] demo_artifact "out.txt"
     = [ {| url := lit "A"; content := lit "n1" |};
         {| url := lit "A"; content := lit "n2" |};
         {| url := lit "B"; content := lit "n3" |} ].
Proof.
  assert (plain_url (lit "A")) as HA by (repeat split; reflexivity).
  assert (plain_url (lit "B")) as HB by (repeat split; reflexivity).
  assert (plain_name (lit "n1")) as H1
    by (repeat split; try reflexivity; discriminate).
  assert (plain_name (lit "n2")) as H2
    by (repeat split; try reflexivity; discriminate).
  assert (plain_name (lit "n3")) as H3
    by (repeat split; try reflexivity; discriminate).
  repeat (split; [first [reflexivity | assumption]|]).
  exact (round_trip_two_blocks demo_artifact "out.txt" (lit "A") (lit "B")
           (lit "n1") (lit "n2") (lit "n3") eq_refl HA HB H1 H2 H3).
Defined.

(** C6, as stated, fails: a name that starts with the marker is written as
    a name line and read back as a marker line; the artifact of the blocks
    (A; URL:n1, n2) and (B; n3) is indexed as two documents, and n2 is filed
    under n1. *)
Lemma round_trip_marker_like_name :
  add_data_to_index []
    {[ "out.txt"%string :=
         block (lit "A") [lit "URL:n1"; lit "n2"] ++ block (lit "B") [lit "n3"] ]}
    "out.txt"
  = [ {| url := lit "n1"; content := lit "n2" |};
      {| url := lit "B"; content := lit "n3" |} ].
Proof. vm_compute. reflexivity. Qed.

(** A name that spans two lines of the page comes back as two documents. *)
Example round_trip_two_line_name :
  add_data_to_index []
    {[ "out.txt"%string := block (lit "A") [lit "Oak" ++ [LF] ++ lit "  Chair"] ]}
    "out.txt"
  = [ {| url := lit "A"; content := lit "Oak" |};
      {| url := lit "A"; content := lit "Chair" |} ].
Proof. vm_compute. reflexivity. Qed.

(** C7 at a URL that contains the marker: the cursor is cut at the second
    occurrence of the marker, and the document is filed under the cut URL
    and not under the URL of the marker line. *)
Theorem marker_inside_url_cuts_cursor :
  add_data_to_index []
    {[ "out.txt"%string :=
         block (lit "http://shop.example/URL:42") [lit "Oak Chair"] ]}
    "out.txt"
  = [ {| url := lit "http://shop.example/"; content := lit "Oak Chair" |} ]
  /\ line_effect [] (lit "URL: http://shop.example/URL:42" ++ [LF])
     = (lit "http://shop.example/", []).
Proof. vm_compute. auto. Qed.

Lemma content_before_marker_has_empty_url_witness :
  demo_headless !! "out.txt"%string
  = Some (lit "Oak Chair" ++ [LF; LF] ++ lit "URL: B" ++ [LF] ++ lit "Lamp" ++ [LF])
  /\ Py.iter_file (lit "Oak Chair" ++ [LF; LF] ++ lit "URL: B" ++ [LF]
                   ++ lit "Lamp" ++ [LF])
     = [lit "Oak Chair" ++ [LF]; [LF]] ++ [lit "URL: B" ++ [LF]; lit "Lamp" ++ [LF]]
  /\ add_data_to_index [] demo_headless "out.txt"
     = [] ++ map (fun line => {| url := []; content := Py.strip line |})
               (List.filter (fun line => Py.truthy (Py.strip line))
                            [lit "Oak Chair" ++ [LF]; [LF]])
          ++ documents_from [] [lit "URL: B" ++ [LF]; lit "Lamp" ++ [LF]].
Proof.
  split; [reflexivity|]. split; [reflexivity|].
  apply (content_before_marker_has_empty_url [] demo_headless "out.txt"
           (lit "Oak Chair" ++ [LF; LF] ++ lit "URL: B" ++ [LF]
            ++ lit "Lamp" ++ [LF])
           [lit "Oak Chair" ++ [LF]; [LF]]
           [lit "URL: B" ++ [LF]; lit "Lamp" ++ [LF]]);
    [reflexivity | reflexivity |].
  intros line [<- | [<- | []]]; reflexivity.
Defined.

Example headless_documents :
  add_data_to_index [] demo_headless "out.txt"
  = [ {| url := []; content := lit "Oak Chair" |};
      {| url := lit "B"; content := lit "Lamp" |} ].
Proof. vm_compute. reflexivity. Qed.

(** * Further properties *)

(** ** Batch Classifier, any model *)

Lemma positives_at_aligned (rest : list str) :
  forall (pre : list str) (lpre lrest : list Z),
    length lpre = length pre ->
    positives_at (pre ++ rest) (lpre ++ lrest)
                 (seq (length pre) (length rest))
    = if length rest <=? length lrest
      then Ok (labelled_positive rest lrest)
      else Raise (PyException "IndexError").
Proof.
  induction rest as [|x rest IH]; intros pre lpre lrest Hlen; [reflexivity|].
  cbn [length seq positives_at].
  rewrite nth_error_app2, Hlen, Nat.sub_diag by lia.
  destruct lrest as [|l lrest]; [reflexivity|].
  cbn [nth_error].
  rewrite nth_error_app2, Nat.sub_diag by lia. cbn [nth_error].
  specialize (IH (pre ++ [x]) (lpre ++ [l]) lrest).
  rewrite !length_app in IH. cbn [length] in IH.
  rewrite !Nat.add_1_r, <- !app_assoc in IH. cbn [app] in IH.
  rewrite IH by lia.
  unfold labelled_positive. cbn [combine List.filter snd length].
  change (S (length rest) <=? S (length lrest))
    with (length rest <=? length lrest).
  destruct (l =? 0)%Z; cbn [negb]; [reflexivity|].
  by destruct (length rest <=? length lrest).
Qed.

Lemma labelled_positive_sublist (batch : list str) (labels : list Z) :
  labelled_positive batch labels `sublist_of` batch.
Proof.
  unfold labelled_positive. revert labels.
  induction batch as [|x batch IH]; intros [|l labels]; cbn;
    try apply sublist_nil_l.
  destruct (l =? 0)%Z; cbn; [apply sublist_cons | apply sublist_skip];
    apply IH.
Qed.

(** X2.  The selection of the positives of a chunk reads the label list by
    position: with at least as many labels as names it keeps the names whose
    label is not zero and ignores the labels beyond the chunk; with fewer
    labels it raises [IndexError]. *)
Theorem positives_by_position (batch : list str) (is_furniture : list Z) :
  positives batch is_furniture
  = if length batch <=? length is_furniture
    then Ok (labelled_positive batch is_furniture)
    else Raise (PyException "IndexError").
Proof.
  exact (positives_at_aligned batch [] [] is_furniture eq_refl).
Qed.

Lemma positives_aligned (batch : list str) (labels : list Z) :
  positives batch labels
  = if length batch <=? length labels
    then Ok (labelled_positive batch labels)
    else Raise (PyException "IndexError").
Proof.
  exact (positives_at_aligned batch [] [] labels eq_refl).
Qed.

Lemma classify_chunk_sublist (model : classifier) (batch out : list str) :
  classify_chunk model batch = Ok out -> out `sublist_of` batch.
Proof.
  unfold classify_chunk. destruct (model batch) as [labels|e]; [|discriminate].
  cbn [bind]. rewrite positives_aligned.
  destruct (length batch <=? length labels); [|discriminate].
  intros [= <-]. apply labelled_positive_sublist.
Qed.

Lemma classify_chunks_sublist (model : classifier) (chunks : list (list str)) :
  forall out, classify_chunks model chunks = Ok out ->
              out `sublist_of` concat chunks.
Proof.
  induction chunks as [|b chunks IH]; intros out; cbn [classify_chunks concat].
  - intros [= <-]. constructor.
  - destruct (classify_chunk model b) as [found|e] eqn:Eb; [|discriminate].
    cbn [bind].
    destruct (classify_chunks model chunks) as [rest|e]; [|discriminate].
    cbn [bind]. intros [= <-].
    apply sublist_app; [by eapply classify_chunk_sublist | by apply IH].
Qed.

Lemma model_inference_sublist (names out : list str) (model : classifier) :
  model_inference names model = Ok out -> out `sublist_of` names.
Proof.
  unfold model_inference.
  rewrite model_inference_with_chunks by (unfold BATCH_SIZE; lia).
  intros H. apply (classify_chunks_sublist model _ out) in H.
  destruct (chunks_from BATCH_SIZE names (length names) 0) as [Hc _];
    [unfold BATCH_SIZE; lia | lia |].
  unfold batches in H. by rewrite Hc in H.
Qed.

(** X1.  Whatever the model answers, batch by batch, [model_inference]
    never invents, repeats or reorders a name: when it returns, its result
    is a subsequence of the candidates it was given. *)
Theorem model_inference_selects (names : list str) (model : classifier) :
  match model_inference names model with
  | Ok product_names => product_names `sublist_of` names
  | Raise _ => True
  end.
Proof.
  destruct (model_inference names model) as [out|e] eqn:E; [|exact I].
  exact (model_inference_sublist names out model E).
Qed.

(** ** Page Scraper: where the names come from *)

Lemma Forall_of_sublist {A : Type} (P : A -> Prop) (l k : list A) :
  l `sublist_of` k -> Forall P k -> Forall P l.
Proof.
  induction 1 as [|x l k _ IH|x l k _ IH]; intros H; [constructor|..];
    inversion H; subst; auto.
Qed.

(** X3.  The names [scrape_product_names] returns come from the page it
    visited: navigation and the wait succeeded, and the names are, in
    document order, leaf texts of the body that passed the Candidate
    Filter, so each is non-blank and has at most ten words. *)
Theorem scraped_names_come_from_the_page (u : str) (driver : webdriver)
    (model : classifier) :
  match snd (scrape_product_names u driver model) with
  | Ok (Some product_names) =>
      exists body,
        navigate (driver u) = None
        /\ wait_for_body (driver u) = None
        /\ document_body (driver u) = Ok body
        /\ product_names `sublist_of` getAllLeafNodesText body
        /\ Forall retained product_names
  | _ => True
  end.
Proof.
  unfold scrape_product_names, scrape_attempt, get_all_leaf_nodes_text.
  destruct (navigate (driver u)) as [e|]; cbn [may_raise bind].
  { destruct (is_Timeout_or_Stale e); [exact I|].
    by destruct (is_WebDriverException e). }
  destruct (wait_for_body (driver u)) as [e|]; cbn [may_raise bind].
  { destruct (is_Timeout_or_Stale e); [exact I|].
    by destruct (is_WebDriverException e). }
  destruct (document_body (driver u)) as [body|e]; cbn [bind].
  2:{ destruct (is_Timeout_or_Stale e); [exact I|].
      by destruct (is_WebDriverException e). }
  destruct (model_inference _ model) as [out|e] eqn:E; cbn [snd].
  2:{ destruct (is_Timeout_or_Stale e); [exact I|].
      by destruct (is_WebDriverException e). }
  exists body. apply model_inference_sublist in E.
  pose proof (get_candidate_names_kept (getAllLeafNodesText body)) as K.
  repeat split; try reflexivity.
  - etransitivity; [exact E|]. by eapply kept_from_sublist.
  - eapply Forall_of_sublist; [exact E | by eapply kept_from_Forall].
Qed.

(** ** Run Orchestrator: a run that stops *)



(** ** The URL list *)

Lemma splitlines_bounded (n : nat) :
  forall s, length s <= n ->
            Forall (fun l => no_linebreak l = true) (Py.splitlines s).
Proof.
  induction n as [|n IH]; intros [|c s] Hlen; try (constructor; fail);
    [simpl in Hlen; lia|].
  simpl in Hlen. cbn [Py.splitlines].
  destruct (Py.is_linebreak c) eqn:Hc.
  - destruct (c =? CR)%N.
    + destruct s as [|c' s]; [by repeat constructor|].
      destruct (c' =? LF)%N; constructor; try reflexivity; apply IH;
        simpl in *; lia.
    + constructor; [reflexivity|]. apply IH. lia.
  - pose proof (IH s ltac:(lia)) as Hs.
    destruct (Py.splitlines s) as [|l ls].
    + repeat constructor. simpl. by rewrite Hc.
    + inversion Hs; subst. constructor; [|assumption].
      simpl. rewrite Hc. assumption.
Qed.

Lemma no_linebreak_no_newline (u : str) :
  no_linebreak u = true -> no_newline u = true.
Proof.
  induction u as [|c u IH]; [reflexivity|]. simpl.
  intros H. apply andb_prop in H as [Hc Hu]. rewrite IH by exact Hu.
  rewrite andb_true_r.
  destruct (N.eqb_spec c LF) as [->|_]; [discriminate|].
  destruct (N.eqb_spec c CR) as [->|_]; [discriminate|]. reflexivity.
Qed.

Lemma read_urls_no_newline (text : str) :
  Forall (fun u => no_newline u = true) (read_urls text).
Proof.
  eapply Forall_impl; [exact (splitlines_bounded _ _ (le_n _))|].
  intros u. apply no_linebreak_no_newline.
Qed.

Lemma splitlines_line (u rest : str) :
  no_linebreak u = true ->
  Py.splitlines (u ++ LF :: rest) = u :: Py.splitlines rest.
Proof.
  induction u as [|c u IH]; intros H; [reflexivity|].
  simpl in H. apply andb_prop in H as [Hc Hu]. apply negb_true_iff in Hc.
  cbn [app Py.splitlines]. by rewrite Hc, IH.
Qed.

Lemma read_urls_lines (urls : list str) :
  Forall (fun u => no_linebreak u = true) urls ->
  read_urls (concat (map (fun u => u ++ [LF]) urls)) = urls.
Proof.
  unfold read_urls. induction 1 as [|u urls Hu _ IH]; [reflexivity|].
  cbn [map concat]. rewrite <- app_assoc. cbn [app].
  rewrite universal_newlines_line by (by apply no_linebreak_no_newline).
  rewrite splitlines_line by exact Hu. by rewrite IH.
Qed.

(** X5.  The URL list of a run is the list of the lines of the URL file:
    no URL contains a line break of [str.splitlines], whatever the file
    holds, and a file written one URL per line, each followed by a line
    feed, reads back as exactly those URLs, the empty lines as empty URLs. *)
Theorem url_file_round_trip (urls : list str) (text : str) :
  Forall (fun u => no_linebreak u = true) urls ->
  read_urls (concat (map (fun u => u ++ [LF]) urls)) = urls
  /\ Forall (fun u => no_linebreak u = true) (read_urls text).
Proof.
  intros H. split; [by apply read_urls_lines|].
  exact (splitlines_bounded _ _ (le_n _)).
Qed.

Lemma url_file_round_trip_witness :
  Forall (fun u => no_linebreak u = true) [siteA; []; siteB]
  /\ read_urls (concat (map (fun u => u ++ [LF]) [siteA; []; siteB]))
     = [siteA; []; siteB].
Proof.
  assert (Forall (fun u => no_linebreak u = true) [siteA; []; siteB]) as H
    by (repeat constructor).
  split; [exact H|].
  exact (proj1 (url_file_round_trip [siteA; []; siteB] [] H)).
Defined.


(** ** Stripping twice *)

Lemma lstrip_with_idem (sp : char -> bool) (s : str) :
  lstrip_with sp (lstrip_with sp s) = lstrip_with sp s.
Proof.
  destruct (lstrip_with sp s) as [|c t] eqn:E; [reflexivity|].
  apply lstrip_with_head in E. by apply lstrip_with_fixed.
Qed.

Lemma strip_with_idem (sp : char -> bool) (s : str) :
  strip_with sp (strip_with sp s) = strip_with sp s.
Proof.
  destruct (strip_with sp s) as [|c t] eqn:E; [reflexivity|].
  pose proof (strip_with_head _ _ _ _ E) as Hc.
  unfold strip_with. rewrite lstrip_with_fixed by exact Hc.
  rewrite <- E. unfold strip_with, rstrip_with.
  by rewrite rev_involutive, lstrip_with_idem.
Qed.

(** ** Search Indexer: what becomes a document *)

Lemma documents_from_content_lines (lines : list str) :
  forall current_url,
    Py.strip current_url = current_url ->
    Forall (fun d => content d <> []
                     /\ Py.strip (content d) = content d
                     /\ Py.startswith MARKER (content d) = false
                     /\ Py.strip (url d) = url d)
           (documents_from current_url lines)
    /\ length (documents_from current_url lines) <= length lines.
Proof.
  induction lines as [|line lines IH]; intros cur Hcur.
  - split; [constructor | reflexivity].
  - cbn [documents_from]. unfold line_effect.
    destruct (Py.startswith MARKER (Py.strip line)) eqn:Hm; cbn [fst snd app].
    + destruct (IH (url_of_marker_line (Py.strip line))) as [HF HL].
      { apply strip_with_idem. }
      split; [exact HF | simpl; lia].
    + destruct (IH cur Hcur) as [HF HL].
      destruct (Py.strip line) as [|c t] eqn:Hs; cbn [Py.truthy fst snd app].
      * split; [exact HF | simpl; lia].
      * split; [|simpl; lia].
        constructor; [|exact HF]. cbn [content url].
        repeat split; [discriminate | | exact Hm | exact Hcur].
        rewrite <- Hs. apply strip_with_idem.
Qed.

(** X8.  [add_data_to_index] keeps the documents the index holds and adds
    at most one document per line of the file.  No document comes from a
    blank line or from a marker line: the content of every added document
    is non-empty, has no surrounding whitespace and does not start with
    [URL:], and its url has no surrounding whitespace.  A file that cannot
    be opened adds nothing. *)
Theorem indexed_documents_are_content_lines (index : list document)
    (fs : filesystem) (file_path : path) :
  add_data_to_index index fs file_path
  = index ++ documents_of_file fs file_path
  /\ Forall (fun d => content d <> []
                      /\ Py.strip (content d) = content d
                      /\ Py.startswith MARKER (content d) = false
                      /\ Py.strip (url d) = url d)
            (documents_of_file fs file_path)
  /\ match fs !! file_path with
     | Some text =>
         length (documents_of_file fs file_path) <= length (Py.iter_file text)
     | None => add_data_to_index index fs file_path = index
     end.
Proof.
  unfold documents_of_file.
  destruct (fs !! file_path) as [text|] eqn:Hf.
  - destruct (documents_from_content_lines (Py.iter_file text) [] eq_refl)
      as [HF HL].
    split; [by apply add_data_to_index_documents|]. by split.
  - unfold add_data_to_index. rewrite Hf, app_nil_r.
    split; [reflexivity|]. split; [constructor | reflexivity].
Qed.

(** ** Dashboard: indexing the artifacts *)

Lemma add_data_to_index_file (index : list document) (fs : filesystem)
    (file_path : path) :
  add_data_to_index index fs file_path
  = index ++ documents_of_file fs file_path.
Proof.
  unfold documents_of_file. destruct (fs !! file_path) as [text|] eqn:Hf.
  - by apply add_data_to_index_documents.
  - unfold add_data_to_index. by rewrite Hf, app_nil_r.
Qed.

Lemma index_data_documents (fs : filesystem) (output_files : list path) :
  forall index,
    index_data index fs output_files
    = index ++ flat_map (documents_of_file fs) output_files.
Proof.
  unfold index_data.
  induction output_files as [|p ps IH]; intros index; cbn [fold_left flat_map].
  - by rewrite app_nil_r.
  - by rewrite IH, add_data_to_index_file, app_assoc.
Qed.

(** X7.  The "Index Data" loop leaves the documents of the index in place
    and appends, file after file in the order listed, the documents of each
    file; a file that cannot be opened is skipped and the files after it are
    still indexed.  Nothing is deduplicated: running the loop again stores
    every document of the files a second time. *)
Theorem index_data_appends (index : list document) (fs : filesystem)
    (output_files : list path) :
  index_data index fs output_files
  = index ++ flat_map (documents_of_file fs) output_files
  /\ index_data (index_data index fs output_files) fs output_files
     = index ++ flat_map (documents_of_file fs) output_files
             ++ flat_map (documents_of_file fs) output_files
  /\ (forall before missing after,
         fs !! missing = None ->
         index_data index fs (before ++ missing :: after)
         = index_data index fs (before ++ after)).
Proof.
  split; [apply index_data_documents|]. split.
  - by rewrite !index_data_documents, app_assoc.
  - intros before missing rest Hm. rewrite !index_data_documents.
    rewrite !List.flat_map_app. cbn [flat_map].
    unfold documents_of_file at 2. by rewrite Hm.
Qed.

(** ** From the run to the index *)

Lemma artifact_per_spec_scraped (drivers : nat -> webdriver)
    (model : classifier) (urls : list str) :
  forall i,
    artifact_per_spec drivers model i urls
    = concat (map (fun b => block (fst b) (snd b))
                  (scraped drivers model i urls)).
Proof.
  induction urls as [|u urls IH]; intros i; [reflexivity|].
  cbn [artifact_per_spec scraped]. rewrite map_app, concat_app, IH.
  f_equal.
  destruct (snd (scrape_product_names u (drivers i) model))
    as [[[|n ns]|]|e]; cbn; try reflexivity.
  by rewrite app_nil_r.
Qed.

Lemma scraped_urls (drivers : nat -> webdriver) (model : classifier)
    (urls : list str) (P : str -> Prop) :
  Forall P urls ->
  forall i, Forall (fun b => P (fst b)) (scraped drivers model i urls).
Proof.
  induction 1 as [|u urls Hu _ IH]; intros i; [constructor|].
  cbn [scraped]. apply Forall_app. split; [|apply IH].
  destruct (snd (scrape_product_names u (drivers i) model))
    as [[[|n ns]|]|e]; repeat constructor. exact Hu.
Qed.

Lemma documents_from_blocks (found : list (str * list str)) :
  Forall (fun b => plain_url (fst b) /\ Forall plain_name (snd b)) found ->
  forall current_url,
    documents_from current_url
      (Py.iter_file (concat (map (fun b => block (fst b) (snd b)) found)))
    = documents_of found.
Proof.
  induction 1 as [|[u names] found [Hu Hn] _ IH]; intros cur; [reflexivity|].
  cbn [map concat fst snd] in *.
  rewrite (documents_from_block _ _ _ _ Hu Hn), IH. reflexivity.
Qed.

(** X6.  A run that ends normally and the indexer fit together: when the
    URLs that yielded names have no surrounding whitespace and do not
    contain the marker, and the names are on one line, without surrounding
    whitespace, and do not start with the marker, indexing the artifact of
    the run adds exactly one document per name, under the URL it was found
    at, in the order of the run. *)
Theorem run_then_index (URLS_FILE OUTPUT_FILE_NAME : path)
    (os : operating_system) (drivers : nat -> webdriver) (model : classifier)
    (fs : filesystem) (text : str) (index : list document) :
  let out := os_path_join output_directory OUTPUT_FILE_NAME in
  let res := produce_output URLS_FILE OUTPUT_FILE_NAME os drivers model fs in
  let found := scraped drivers model 0 (read_urls text) in
  (<[out := []]> fs) !! URLS_FILE = Some text ->
  snd res = None ->
  Forall (fun b => Py.strip (fst b) = fst b
                   /\ Py.partition MARKER (fst b) = None
                   /\ Forall plain_name (snd b)) found ->
  add_data_to_index index (files (fst res)) out = index ++ documents_of found.
Proof.
  intros out res found Hu Hnone Hplain. subst res.
  assert (output_failure os OUTPUT_FILE_NAME = None) as Ho.
  { destruct (output_failure os OUTPUT_FILE_NAME) as [e|] eqn:Ho;
      [|reflexivity].
    rewrite (produce_output_not_opened _ _ _ _ _ _ _ Ho) in Hnone.
    discriminate. }
  rewrite (produce_output_unfold _ _ _ _ _ _ _ Ho Hu) in *.
  fold out in Hnone |- *.
  set (urls := read_urls text) in *.
  set (st0 := {| files := <[out := []]> fs; log := []; progress := [] |}) in *.
  destruct (for_urls_spec out (length urls) drivers model urls 0 st0 []
              (lookup_insert_eq _ _ _)) as (k & Hk & Hf & _ & Hend).
  set (res := for_urls _ _ _ _ _ _ _) in *.
  rewrite Hnone in Hend. destruct Hend as [-> _]. rewrite firstn_all in Hf.
  assert (files (fst res) !! out
          = Some (artifact_per_spec drivers model 0 urls)) as Hout
    by (rewrite Hf; apply lookup_insert_eq).
  rewrite (add_data_to_index_documents _ _ _ _ Hout).
  rewrite artifact_per_spec_scraped, documents_from_blocks; [reflexivity|].
  pose proof (scraped_urls drivers model urls _ (read_urls_no_newline text) 0)
    as Hlines.
  fold found. clear -Hplain Hlines. fold found in Hlines.
  induction Hplain as [|b found' (Hs & Hp & Hn) _ IH]; [constructor|].
  inversion Hlines; subst. constructor; [|by apply IH].
  by repeat split.
Qed.

(** ** Analysis *)

Lemma str_eqb_eq (a b : str) : str_eqb a b = true <-> a = b.
Proof.
  revert b. induction a as [|x a IH]; intros [|y b]; simpl;
    try (split; [discriminate | discriminate]); [tauto|].
  rewrite andb_true_iff, N.eqb_eq, IH. split.
  - by intros [-> ->].
  - by intros [= -> ->].
Qed.

Lemma str_eqb_refl (a : str) : str_eqb a a = true.
Proof. by apply str_eqb_eq. Qed.

Lemma copy_without_urls_concat (lines : list str) :
  forall temp,
    copy_without_urls temp lines
    = temp ++ concat (List.filter (fun line => negb (Py.startswith MARKER line))
                                  lines).
Proof.
  unfold copy_without_urls.
  induction lines as [|line lines IH]; intros temp; cbn [fold_left List.filter].
  - by rewrite app_nil_r.
  - rewrite IH. destruct (Py.startswith MARKER line); cbn [negb concat];
      [reflexivity | by rewrite app_assoc].
Qed.

Lemma create_temp_file_content (temp_name : path) (fs : filesystem)
    (output_files : list path) :
  ~ In temp_name output_files ->
  create_temp_file_without_urls temp_name output_files fs
  = (<[temp_name := concat (kept_lines fs output_files)]> fs, temp_name).
Proof.
  intros Hfresh. unfold create_temp_file_without_urls. f_equal.
  change (<[temp_name := []]> fs)
    with (<[temp_name := [] ++ concat (kept_lines fs [])]> fs) at 1.
  assert (forall acc,
             fold_left
               (fun fs' file_path =>
                  match fs' !! file_path with
                  | None => fs'
                  | Some text =>
                      <[temp_name := copy_without_urls
                                       (default [] (fs' !! temp_name))
                                       (Py.iter_file text)]> fs'
                  end)
               output_files (<[temp_name := acc]> fs)
             = <[temp_name := acc ++ concat (kept_lines fs output_files)]> fs)
    as Hfold.
  { induction output_files as [|p ps IH]; intros acc; cbn [fold_left].
    - by rewrite app_nil_r.
    - assert (temp_name <> p) as Hp by (intros ->; apply Hfresh; by left).
      rewrite lookup_insert_ne by exact Hp.
      unfold kept_lines. cbn [flat_map]. fold (kept_lines fs ps).
      destruct (fs !! p) as [text|].
      + rewrite lookup_insert_eq. cbn [default from_option id].
        rewrite insert_insert_eq, copy_without_urls_concat.
        rewrite IH by (intros H; apply Hfresh; by right).
        by rewrite concat_app, app_assoc.
      + rewrite IH by (intros H; apply Hfresh; by right). reflexivity. }
  exact (Hfold []).
Qed.

Lemma last_step (c : char) (s : str) :
  s <> [] -> ends_with_newline (c :: s) = ends_with_newline s.
Proof. by destruct s. Qed.

(** What universal newlines do to a text: no carriage return is left, the
    text stays empty or not, and it still ends with a line feed. *)
Lemma universal_newlines_facts (n : nat) :
  forall s, length s <= n ->
    Forall (fun c => c <> CR) (Py.universal_newlines s)
    /\ (s <> [] -> Py.universal_newlines s <> [])
    /\ (ends_with_newline s = true ->
        ends_with_newline (Py.universal_newlines s) = true).
Proof.
  assert (Forall (fun c => c <> CR) (Py.universal_newlines [])
          /\ (@nil N <> [] -> Py.universal_newlines [] <> [])
          /\ (ends_with_newline [] = true ->
              ends_with_newline (Py.universal_newlines []) = true)) as Hnil
    by (split; [constructor | split; [done | reflexivity]]).
  induction n as [|n IH]; intros [|c s] Hlen; try exact Hnil;
    [simpl in Hlen; lia|].
  simpl in Hlen. cbn [Py.universal_newlines].
  destruct (N.eqb_spec c CR) as [->|Hc].
  - destruct s as [|c' s];
      [split; [by repeat constructor | split; [done | discriminate]]|].
    destruct (N.eqb_spec c' LF) as [->|Hc'].
    + destruct (IH s ltac:(simpl in *; lia)) as (HF & Hne & He).
      split; [constructor; [done | exact HF]|]. split; [done|].
      destruct s as [|c'' s]; [reflexivity|].
      rewrite !last_step by done. intros H.
      rewrite last_step by (apply Hne; done). by apply He.
    + destruct (IH (c' :: s) ltac:(simpl in *; lia)) as (HF & Hne & He).
      split; [constructor; [done | exact HF]|]. split; [done|].
      rewrite last_step by done. intros H.
      rewrite last_step by (apply Hne; done). by apply He.
  - destruct (IH s ltac:(lia)) as (HF & Hne & He).
    split; [constructor; [exact Hc | exact HF]|]. split; [done|].
    destruct s as [|c' s]; [done|].
    rewrite last_step by done. intros H.
    rewrite last_step by (apply Hne; done). by apply He.
Qed.

Lemma lines_keepends_nil (u : str) : Py.lines_keepends u = [] -> u = [].
Proof.
  destruct u as [|c u]; [done|]. cbn [Py.lines_keepends].
  destruct (c =? LF)%N; [discriminate|].
  by destruct (Py.lines_keepends u).
Qed.

Lemma lines_keepends_terminated (u : str) :
  Forall (fun c => c <> CR) u -> ends_with_newline u = true ->
  Forall terminated_line (Py.lines_keepends u).
Proof.
  induction u as [|c u IH]; intros HF He; [constructor|].
  inversion HF as [|? ? Hc HF']; subst. cbn [Py.lines_keepends].
  destruct (N.eqb_spec c LF) as [->|Hlf].
  - constructor; [by exists [] |]. apply IH; [exact HF'|].
    destruct u; [reflexivity | by rewrite last_step in He].
  - destruct u as [|c' u].
    { simpl in He. apply N.eqb_eq in He. contradiction. }
    rewrite last_step in He by done. specialize (IH HF' He).
    destruct (Py.lines_keepends (c' :: u)) as [|l ls] eqn:E.
    { apply lines_keepends_nil in E. discriminate. }
    inversion IH as [|? ? (body & -> & Hb) Hls]; subst.
    constructor; [|exact Hls]. exists (c :: body). split; [reflexivity|].
    simpl. rewrite Hb.
    destruct (N.eqb_spec c LF); [contradiction|].
    destruct (N.eqb_spec c CR); [contradiction|]. reflexivity.
Qed.

Lemma iter_file_terminated_lines (text : str) :
  ends_with_newline text = true ->
  Forall terminated_line (Py.iter_file text).
Proof.
  intros He.
  destruct (universal_newlines_facts _ text (le_n _)) as (HF & _ & Hend).
  apply lines_keepends_terminated; [exact HF | by apply Hend].
Qed.

(** Lines that carry their line feed are read back as they were written. *)
Lemma iter_file_concat_terminated (lines : list str) :
  Forall terminated_line lines -> Py.iter_file (concat lines) = lines.
Proof.
  induction 1 as [|line lines (body & -> & Hb) _ IH]; [reflexivity|].
  cbn [concat]. rewrite <- app_assoc. cbn [app].
  by rewrite iter_file_line, IH.
Qed.

Lemma kept_lines_terminated (fs : filesystem) (output_files : list path) :
  (forall p text, In p output_files -> fs !! p = Some text ->
                  ends_with_newline text = true) ->
  Forall terminated_line (kept_lines fs output_files).
Proof.
  intros Hend. unfold kept_lines.
  induction output_files as [|p ps IH]; [constructor|].
  cbn [flat_map]. apply Forall_app. split.
  - destruct (fs !! p) as [text|] eqn:Hp; [|constructor].
    apply Forall_forall. intros l Hl.
    apply list_elem_of_In, filter_In in Hl as [Hl _].
    pose proof (iter_file_terminated_lines text
                  (Hend p text ltac:(by left) Hp)) as HT.
    rewrite Forall_forall in HT. by apply HT, list_elem_of_In.
  - apply IH. intros q text Hq. apply Hend. by right.
Qed.

(** X9.  [create_temp_file_without_urls] skips the files it cannot open
    and copies, in order, the lines of the others that do not start with
    [URL:].  When every file it reads is empty or ends with a line feed, as
    the artifacts of a run do, the temporary file reads back as exactly
    those lines, and none of its lines starts with [URL:]. *)
Theorem temp_file_holds_the_other_lines (temp_name : path)
    (output_files : list path) (fs : filesystem) :
  ~ In temp_name output_files ->
  (forall p text, In p output_files -> fs !! p = Some text ->
                  ends_with_newline text = true) ->
  create_temp_file_without_urls temp_name output_files fs
  = (<[temp_name := concat (kept_lines fs output_files)]> fs, temp_name)
  /\ Py.iter_file (concat (kept_lines fs output_files))
     = kept_lines fs output_files
  /\ Forall (fun line => Py.startswith MARKER line = false)
            (Py.iter_file (concat (kept_lines fs output_files))).
Proof.
  intros Hfresh Hend.
  pose proof (kept_lines_terminated fs output_files Hend) as HT.
  split; [by apply create_temp_file_content|].
  split; [by apply iter_file_concat_terminated|].
  rewrite iter_file_concat_terminated by exact HT.
  unfold kept_lines. apply Forall_forall. intros l Hl.
  apply list_elem_of_In, in_flat_map in Hl as (p & _ & Hl).
  destruct (fs !! p); [|done].
  apply filter_In in Hl as [_ Hl]. by apply negb_true_iff in Hl.
Qed.

Lemma temp_file_holds_the_other_lines_witness :
  ~ In "tmp"%string ["out.txt"; "missing.txt"]%string
  /\ create_temp_file_without_urls "tmp" ["out.txt"; "missing.txt"]%string
       demo_artifact
     = (<["tmp"%string :=
            concat (kept_lines demo_artifact ["out.txt"; "missing.txt"]%string)]>
          demo_artifact, "tmp"%string).
Proof.
  assert (~ In "tmp"%string ["out.txt"; "missing.txt"]%string) as Hfresh
    by (intros [H | [H | []]]; discriminate H).
  split; [exact Hfresh|].
  apply (temp_file_holds_the_other_lines "tmp"
           ["out.txt"; "missing.txt"]%string demo_artifact Hfresh).
  intros p text [<- | [<- | []]]; vm_compute; intros [= <-]; reflexivity.
Defined.

Lemma counter_get_add (key elem : str) (counts : list (list N * nat)) :
  counter_get key (counter_add elem counts)
  = counter_get key counts + (if str_eqb elem key then 1 else 0).
Proof.
  induction counts as [|[k n] counts IH]; cbn [counter_add counter_get].
  - reflexivity.
  - destruct (str_eqb k elem) eqn:Hke; cbn [counter_get].
    + apply str_eqb_eq in Hke as ->.
      destruct (str_eqb elem key); lia.
    + destruct (str_eqb k key) eqn:Hkk; [|exact IH].
      apply str_eqb_eq in Hkk as ->.
      destruct (str_eqb elem key) eqn:E; [|lia].
      apply str_eqb_eq in E as ->. rewrite str_eqb_refl in Hke. discriminate.
Qed.

Lemma counter_add_keys (elem : str) (counts : list (list N * nat)) :
  (forall key, In key (map fst (counter_add elem counts))
               <-> key = elem \/ In key (map fst counts))
  /\ (NoDup (map fst counts) -> NoDup (map fst (counter_add elem counts)))
  /\ list_sum (map snd (counter_add elem counts))
     = S (list_sum (map snd counts)).
Proof.
  induction counts as [|[k n] counts (IHk & IHn & IHs)];
    cbn [counter_add map fst snd list_sum].
  - split; [intros key; simpl; intuition|].
    split; [intros _; repeat constructor; by intros ?%elem_of_nil | reflexivity].
  - destruct (str_eqb k elem) eqn:Hke; cbn [map fst snd list_sum In].
    + apply str_eqb_eq in Hke as ->.
      split; [intros key; intuition (subst; auto)|].
      split; [done | simpl; lia].
    + split; [intros key; rewrite IHk; intuition|].
      split; [|simpl; rewrite IHs; lia].
      rewrite !NoDup_cons. intros [Hk Hnd]. split; [|by apply IHn].
      rewrite list_elem_of_In in *. rewrite IHk. intros [-> | H]; [|done].
      rewrite str_eqb_refl in Hke. discriminate.
Qed.

Lemma Counter_spec (elems : list str) :
  forall counts,
    let result := fold_left (fun counts elem => counter_add elem counts)
                            elems counts in
    (forall key, counter_get key result
                 = counter_get key counts + occurrences key elems)
    /\ (forall key, In key (map fst result)
                    <-> In key (map fst counts) \/ In key elems)
    /\ (NoDup (map fst counts) -> NoDup (map fst result))
    /\ list_sum (map snd result) = list_sum (map snd counts) + length elems.
Proof.
  induction elems as [|e elems IH]; intros counts; cbn [fold_left].
  - unfold occurrences. simpl. repeat split; try lia; intuition.
  - destruct (IH (counter_add e counts)) as (Hg & Hk & Hn & Hs).
    destruct (counter_add_keys e counts) as (Ak & An & As).
    split; [|split; [|split]].
    + intros key. rewrite Hg, counter_get_add. unfold occurrences.
      cbn [List.filter]. destruct (str_eqb e key); simpl; lia.
    + intros key. rewrite Hk, Ak. simpl. intuition.
    + intros H. by apply Hn, An.
    + rewrite Hs, As. simpl. lia.
Qed.

Lemma categories_of_stripped (text : str) :
  Forall (fun c => c <> [] /\ Py.strip c = c) (categories_of text).
Proof.
  unfold categories_of. apply Forall_map, Forall_forall. intros l Hl.
  apply list_elem_of_In, filter_In in Hl as [_ Hl]. split.
  - by destruct (Py.strip l).
  - apply strip_with_idem.
Qed.

(** X10.  [count_categories] counts the stripped non-blank lines of the
    file: the count of a key is the number of lines that strip to it and is
    zero for any other string, each key is listed once, the keys are
    non-empty and have no surrounding whitespace, and the counts add up to
    the number of non-blank lines.  A file that cannot be opened gives the
    empty counter. *)
Theorem count_categories_counts_lines (file_path : path) (fs : filesystem) :
  let counts := count_categories file_path fs in
  let categories := match fs !! file_path with
                    | Some text => categories_of text
                    | None => []
                    end in
  (forall key, counter_get key counts = occurrences key categories)
  /\ (forall key, In key (map fst counts) <-> In key categories)
  /\ NoDup (map fst counts)
  /\ list_sum (map snd counts) = length categories
  /\ Forall (fun key => key <> [] /\ Py.strip key = key) (map fst counts)
  /\ (fs !! file_path = None -> counts = []).
Proof.
  intros counts categories. subst counts categories. unfold count_categories.
  destruct (fs !! file_path) as [text|].
  - destruct (Counter_spec (categories_of text) []) as (Hg & Hk & Hn & Hs).
    fold (Counter (categories_of text)) in *.
    split; [exact Hg|].
    split; [intros key; rewrite Hk; simpl; tauto|].
    split; [apply Hn; constructor|]. split; [exact Hs|].
    split; [|discriminate].
    apply Forall_forall. intros key Hkey.
    apply list_elem_of_In, Hk in Hkey as [[]|Hkey].
    pose proof (categories_of_stripped text) as HF.
    rewrite Forall_forall in HF. by apply HF, list_elem_of_In.
  - repeat split; try constructor; simpl; tauto.
Qed.

(** ** Analysis and index on the same files *)

Lemma documents_from_contents (lines : list str) :
  forall current_url,
    map content (documents_from current_url lines)
    = map Py.strip
        (List.filter (fun line => negb (Py.startswith MARKER (Py.strip line))
                                  && Py.truthy (Py.strip line)) lines).
Proof.
  induction lines as [|line lines IH]; intros cur; [reflexivity|].
  cbn [documents_from List.filter]. unfold line_effect.
  rewrite map_app.
  destruct (Py.startswith MARKER (Py.strip line)); cbn [negb andb fst snd map];
    [apply IH|].
  destruct (Py.truthy (Py.strip line)); cbn [fst snd map app];
    by rewrite IH.
Qed.

Lemma categories_of_kept_lines (lines : list str) :
  Forall (fun line => Py.startswith MARKER (Py.strip line)
                      = Py.startswith MARKER line) lines ->
  map Py.strip
      (List.filter (fun line => Py.truthy (Py.strip line))
         (List.filter (fun line => negb (Py.startswith MARKER line)) lines))
  = map Py.strip
        (List.filter (fun line => negb (Py.startswith MARKER (Py.strip line))
                                  && Py.truthy (Py.strip line)) lines).
Proof.
  induction 1 as [|line lines Hl _ IH]; [reflexivity|].
  cbn [List.filter]. rewrite Hl.
  destruct (Py.startswith MARKER line); cbn [negb andb]; [exact IH|].
  cbn [List.filter]. destruct (Py.truthy (Py.strip line)); cbn [map];
    by rewrite IH.
Qed.

Lemma kept_lines_contents (fs : filesystem) (output_files : list path) :
  (forall p text, In p output_files -> fs !! p = Some text ->
                  Forall (fun line => Py.startswith MARKER (Py.strip line)
                                      = Py.startswith MARKER line)
                         (Py.iter_file text)) ->
  map Py.strip (List.filter (fun line => Py.truthy (Py.strip line))
                            (kept_lines fs output_files))
  = map content (flat_map (documents_of_file fs) output_files).
Proof.
  intros Hm. unfold kept_lines.
  induction output_files as [|p ps IH]; [reflexivity|].
  cbn [flat_map]. rewrite List.filter_app, !map_app.
  rewrite IH by (intros q text Hq; apply Hm; by right). f_equal.
  unfold documents_of_file. destruct (fs !! p) as [text|] eqn:Hp; [|done].
  rewrite documents_from_contents.
  apply categories_of_kept_lines, (Hm p text); [by left | exact Hp].
Qed.

(** X11.  On files that are empty or end with a line feed and in which no
    line hides the marker behind leading whitespace, the analysis and the
    index see the same names: the counter computed from the temporary file
    of [create_temp_file_without_urls] is the counter of the contents of
    the documents that indexing the same files adds to an empty index. *)
Theorem analysis_counts_what_is_indexed (temp_name : path)
    (output_files : list path) (fs : filesystem) :
  ~ In temp_name output_files ->
  (forall p text, In p output_files -> fs !! p = Some text ->
                  ends_with_newline text = true
                  /\ Forall (fun line => Py.startswith MARKER (Py.strip line)
                                         = Py.startswith MARKER line)
                            (Py.iter_file text)) ->
  let temp := create_temp_file_without_urls temp_name output_files fs in
  count_categories (snd temp) (fst temp)
  = Counter (map content (index_data [] fs output_files)).
Proof.
  intros Hfresh Hfiles temp. subst temp.
  rewrite create_temp_file_content by exact Hfresh. cbn [fst snd].
  unfold count_categories. rewrite lookup_insert_eq. f_equal.
  unfold categories_of.
  rewrite iter_file_concat_terminated
    by (apply kept_lines_terminated; intros p text Hp Hl;
        by apply (Hfiles p text)).
  rewrite index_data_documents. cbn [app].
  apply kept_lines_contents. intros p text Hp Hl. by apply (Hfiles p text).
Qed.

Lemma analysis_counts_what_is_indexed_witness :
  ~ In "tmp"%string ["out.txt"; "missing.txt"]%string
  /\ count_categories
       (snd (create_temp_file_without_urls "tmp"
               ["out.txt"; "missing.txt"]%string demo_artifact))
       (fst (create_temp_file_without_urls "tmp"
               ["out.txt"; "missing.txt"]%string demo_artifact))
     = Counter (map content
                  (index_data [] demo_artifact
                     ["out.txt"; "missing.txt"]%string)).
Proof.
  assert (~ In "tmp"%string ["out.txt"; "missing.txt"]%string) as Hfresh
    by (intros [H | [H | []]]; discriminate H).
  split; [exact Hfresh|].
  apply (analysis_counts_what_is_indexed "tmp"
           ["out.txt"; "missing.txt"]%string demo_artifact Hfresh).
  intros p text [<- | [<- | []]]; vm_compute; intros [= <-];
    split; [reflexivity | repeat constructor].
Defined.

(** ** The artifact of a run ends its last line *)






(** ** Dashboard: grouping the search results *)

Lemma group_get_append (key k value : str)
    (groups : list (list N * list (list N))) :
  group_get k (group_append key value groups)
  = group_get k groups ++ (if str_eqb key k then [value] else []).
Proof.
  induction groups as [|[k' vs] groups IH]; cbn [group_append group_get].
  - destruct (str_eqb key k); reflexivity.
  - destruct (str_eqb k' key) eqn:Hk; cbn [group_get].
    + apply str_eqb_eq in Hk as ->.
      destruct (str_eqb key k); [reflexivity | by rewrite app_nil_r].
    + destruct (str_eqb k' k) eqn:Hkk; [|exact IH].
      apply str_eqb_eq in Hkk as ->.
      destruct (str_eqb key k) eqn:E; [|by rewrite app_nil_r].
      apply str_eqb_eq in E as ->. rewrite str_eqb_refl in Hk. discriminate.
Qed.

Lemma group_append_keys (key value : str)
    (groups : list (list N * list (list N))) :
  map fst (group_append key value groups)
  = if has_key key (map fst groups) then map fst groups
    else map fst groups ++ [key].
Proof.
  unfold has_key.
  induction groups as [|[k vs] groups IH]; cbn [group_append map fst existsb];
    [reflexivity|].
  destruct (str_eqb k key); cbn [orb map fst]; [reflexivity|].
  rewrite IH. by destruct (existsb _ (map fst groups)).
Qed.

Lemma group_append_sizes (key value : str)
    (groups : list (list N * list (list N))) :
  length (concat (map snd (group_append key value groups)))
  = S (length (concat (map snd groups)))
  /\ (Forall (fun g => snd g <> []) groups ->
      Forall (fun g => snd g <> []) (group_append key value groups)).
Proof.
  induction groups as [|[k vs] groups [IHl IHf]];
    cbn [group_append map snd concat].
  - split; [reflexivity | intros _; repeat constructor; discriminate].
  - destruct (str_eqb k key); cbn [map snd concat].
    + split; [rewrite !length_app; simpl; lia|].
      intros H. inversion H; subst. constructor; [|assumption].
      cbn [snd]. by destruct vs.
    + split; [rewrite !length_app, IHl; lia|].
      intros H. inversion H; subst. constructor; [assumption | by apply IHf].
Qed.

Lemma filter_not_key (keys l : list (list N)) (key : str) :
  has_key key keys = true ->
  List.filter (fun y => negb (has_key y keys))
              (List.filter (fun y => negb (str_eqb key y)) l)
  = List.filter (fun y => negb (has_key y keys)) l.
Proof.
  intros Hk. induction l as [|y l IH]; [reflexivity|].
  cbn [List.filter]. destruct (str_eqb key y) eqn:E; cbn [negb List.filter].
  - apply str_eqb_eq in E as <-. rewrite Hk. exact IH.
  - by rewrite IH.
Qed.

Lemma filter_no_keys (l : list (list N)) :
  List.filter (fun y => negb (has_key y [])) l = l.
Proof.
  induction l as [|y l IH]; [reflexivity|].
  change (y :: List.filter (fun y => negb (has_key y [])) l = y :: l).
  by rewrite IH.
Qed.

Lemma has_key_snoc (y key : str) (keys : list (list N)) :
  has_key y (keys ++ [key]) = has_key y keys || str_eqb key y.
Proof. unfold has_key. rewrite existsb_app. simpl. by rewrite orb_false_r. Qed.

Lemma groups_keys (results : list document) :
  forall groups,
    map fst (fold_left (fun groups result =>
                          group_append (url result) (content result) groups)
                       results groups)
    = map fst groups
      ++ List.filter (fun y => negb (has_key y (map fst groups)))
                     (first_seen (map url results)).
Proof.
  induction results as [|r results IH]; intros groups;
    cbn [fold_left map first_seen List.filter].
  - by rewrite app_nil_r.
  - rewrite IH, group_append_keys.
    destruct (has_key (url r) (map fst groups)) eqn:Hk; cbn [negb].
    + by rewrite filter_not_key.
    + rewrite <- app_assoc. cbn [app]. do 2 f_equal.
      clear IH. induction (first_seen (map url results)) as [|y l IHl];
        [reflexivity|].
      cbn [List.filter]. rewrite has_key_snoc, negb_orb.
      destruct (str_eqb (url r) y) eqn:E; cbn [negb];
        [by rewrite andb_false_r|].
      rewrite andb_true_r. cbn [List.filter].
      destruct (has_key y (map fst groups)); cbn [negb]; by rewrite IHl.
Qed.

Lemma first_seen_NoDup (l : list (list N)) : NoDup (first_seen l).
Proof.
  induction l as [|x l IH]; [constructor|]. cbn [first_seen].
  apply NoDup_cons. split.
  - intros H. apply list_elem_of_In, filter_In in H as [_ H].
    by rewrite str_eqb_refl in H.
  - clear -IH. induction IH as [|y l' Hy _ IH']; [constructor|].
    cbn [List.filter]. destruct (negb (str_eqb x y)); [|exact IH'].
    apply NoDup_cons. split; [|exact IH'].
    intros H. apply Hy.
    apply list_elem_of_In, filter_In in H as [H _]. by apply list_elem_of_In.
Qed.

Lemma groups_get (results : list document) (key : str) :
  forall groups,
    group_get key (fold_left (fun groups result =>
                                group_append (url result) (content result)
                                             groups)
                             results groups)
    = group_get key groups ++ contents_under key results.
Proof.
  unfold contents_under.
  induction results as [|r results IH]; intros groups;
    cbn [fold_left List.filter].
  - by rewrite app_nil_r.
  - rewrite IH, group_get_append, <- app_assoc. f_equal.
    by destruct (str_eqb (url r) key).
Qed.

Lemma groups_sizes (results : list document) :
  forall groups,
    Forall (fun g => snd g <> []) groups ->
    let final := fold_left (fun groups result =>
                              group_append (url result) (content result)
                                           groups)
                           results groups in
    length (concat (map snd final))
    = length (concat (map snd groups)) + length results
    /\ Forall (fun g => snd g <> []) final.
Proof.
  induction results as [|r results IH]; intros groups Hne; cbn [fold_left].
  - split; [simpl; lia | exact Hne].
  - destruct (group_append_sizes (url r) (content r) groups) as [Hl Hf].
    destruct (IH _ (Hf Hne)) as [IHl IHf].
    split; [rewrite IHl, Hl; simpl; lia | exact IHf].
Qed.

(** X13.  The grouping of the search results loses and repeats nothing:
    the URLs are listed once each, in the order of their first result; the
    entry of a URL holds the contents of exactly the results with that URL,
    in result order, and is never empty; a URL without a result has no
    entry; and the entries hold as many contents as there are results. *)
Theorem results_by_url_groups (results : list document) :
  map fst (results_by_url results) = first_seen (map url results)
  /\ NoDup (map fst (results_by_url results))
  /\ (forall key, group_get key (results_by_url results)
                  = contents_under key results)
  /\ Forall (fun g => snd g <> []) (results_by_url results)
  /\ length (concat (map snd (results_by_url results))) = length results.
Proof.
  unfold results_by_url.
  pose proof (groups_keys results []) as Hk. cbn [map app] in Hk.
  assert (map fst (fold_left (fun groups result =>
                                group_append (url result) (content result)
                                             groups) results [])
          = first_seen (map url results)) as Hkeys.
  { rewrite Hk. apply filter_no_keys. }
  destruct (groups_sizes results [] ltac:(constructor)) as [Hl Hf].
  split; [exact Hkeys|].
  split; [rewrite Hkeys; apply first_seen_NoDup|].
  split; [intros key; apply (groups_get results key [])|].
  split; [exact Hf | exact Hl].
Qed.

Lemma run_then_index_witness :
  (<[demo_out := []]> demo_fs) !! "urls.csv"%string
  = Some (siteA ++ [LF] ++ siteB ++ [LF])
  /\ snd (produce_output "urls.csv" "out.txt" demo_os
            (fun _ => demo_driver) demo_model demo_fs) = None
  /\ add_data_to_index []
       (files (fst (produce_output "urls.csv" "out.txt" demo_os
                      (fun _ => demo_driver) demo_model demo_fs)))
       demo_out
     = [] ++ documents_of
               (scraped (fun _ => demo_driver) demo_model 0
                        (read_urls (siteA ++ [LF] ++ siteB ++ [LF]))).
Proof.
  assert (snd (produce_output "urls.csv" "out.txt" demo_os
                 (fun _ => demo_driver) demo_model demo_fs) = None) as Hnone
    by (vm_compute; reflexivity).
  split; [exact demo_urls_file|]. split; [exact Hnone|].
  apply (run_then_index "urls.csv" "out.txt" demo_os (fun _ => demo_driver)
           demo_model demo_fs (siteA ++ [LF] ++ siteB ++ [LF]) []
           demo_urls_file Hnone).
  assert (scraped (fun _ => demo_driver) demo_model 0
                  (read_urls (siteA ++ [LF] ++ siteB ++ [LF]))
          = [(siteA, [lit "Oak Chair"; lit "Lamp"])]) as ->
    by (vm_compute; reflexivity).
  repeat constructor; try discriminate.
Defined.

Example run_then_index_documents :
  add_data_to_index []
    (files (fst (produce_output "urls.csv" "out.txt" demo_os
                   (fun _ => demo_driver) demo_model demo_fs)))
    demo_out
  = [ {| url := siteA; content := lit "Oak Chair" |};
      {| url := siteA; content := lit "Lamp" |} ].
Proof. vm_compute. reflexivity. Qed.

(** ** Dashboard: the name of the output file *)

Lemma rfind_from_range (c : ascii) (p : list ascii) :
  forall i, rfind_from i c p = (-1)%Z
            \/ (i <= rfind_from i c p < i + Z.of_nat (length p))%Z.
Proof.
  induction p as [|x p IH]; intros i; [by left|].
  cbn [rfind_from length]. destruct (IH (i + 1)%Z) as [-> | H].
  - cbn. destruct (Ascii.eqb x c); [right; lia | by left].
  - destruct (Z.leb_spec 0 (rfind_from (i + 1) c p)); [right; lia|].
    destruct (Ascii.eqb x c); [right; lia | by left].
Qed.

Lemma rfind_from_absent (c : ascii) (p : list ascii) :
  ~ In c p -> forall i, rfind_from i c p = (-1)%Z.
Proof.
  induction p as [|x p IH]; intros Hno i; [reflexivity|].
  cbn [rfind_from]. rewrite IH by (intros H; apply Hno; by right). cbn.
  destruct (Ascii.eqb_spec x c) as [->|_]; [|reflexivity].
  exfalso. apply Hno. by left.
Qed.

Lemma rfind_from_last (c : ascii) (x y : list ascii) :
  ~ In c y ->
  forall i, (0 <= i)%Z ->
            rfind_from i c (x ++ c :: y) = (i + Z.of_nat (length x))%Z.
Proof.
  intros Hno. induction x as [|a x IH]; intros i Hi;
    cbn [app rfind_from length].
  - rewrite rfind_from_absent by exact Hno. cbn.
    rewrite Ascii.eqb_refl. lia.
  - rewrite IH by lia.
    destruct (Z.leb_spec 0 (i + 1 + Z.of_nat (length x))); lia.
Qed.

Lemma rfind_from_app_absent (c : ascii) (x y : list ascii) :
  ~ In c y -> forall i, rfind_from i c (x ++ y) = rfind_from i c x.
Proof.
  intros Hno. induction x as [|a x IH]; intros i; cbn [app rfind_from].
  - by apply rfind_from_absent.
  - by rewrite IH.
Qed.

Lemma splitext_parts (dir stem ext : list ascii) :
  ~ In "/"%char stem -> ~ In "/"%char ext -> ~ In "."%char ext ->
  existsb (fun x => negb (Ascii.eqb x ".")) stem = true ->
  splitext (dir ++ stem ++ "."%char :: ext) = (dir ++ stem, "."%char :: ext).
Proof.
  intros Hs1 Hs2 Hd Hstem. unfold splitext, rfind.
  assert (rfind_from 0 "." (dir ++ stem ++ "."%char :: ext)
          = Z.of_nat (length (dir ++ stem))) as ->.
  { rewrite app_assoc, rfind_from_last by (exact Hd || lia). lia. }
  assert (rfind_from 0 "/" (dir ++ stem ++ "."%char :: ext)
          = rfind_from 0 "/" dir) as ->.
  { apply rfind_from_app_absent. intros H. apply in_app_or in H as [H|[H|H]];
      [by apply Hs1 | discriminate H | by apply Hs2]. }
  pose proof (rfind_from_range "/" dir 0) as Hr.
  rewrite length_app. rewrite Nat2Z.id.
  destruct (Z.ltb_spec (rfind_from 0 "/" dir)
                       (Z.of_nat (length dir + length stem))) as [_|Hge];
    [|lia].
  set (k := Z.to_nat (rfind_from 0 "/" dir + 1)).
  assert (k <= length dir) as Hk by (subst k; lia).
  assert (slice (dir ++ stem ++ "."%char :: ext) k (length dir + length stem)
          = drop k dir ++ stem) as ->.
  { unfold slice. rewrite drop_app_le by exact Hk.
    rewrite app_assoc, take_app_le
      by (rewrite length_app, length_drop; lia).
    apply take_ge. rewrite length_app, length_drop. lia. }
  rewrite existsb_app, Hstem, orb_true_r.
  rewrite app_assoc. f_equal.
  - rewrite take_app_le by (rewrite length_app; lia).
    apply take_ge. rewrite length_app. lia.
  - rewrite drop_app_ge by (rewrite length_app; lia).
    rewrite length_app, Nat.sub_diag. reflexivity.
Qed.

Lemma splitext_no_dot (p : list ascii) :
  ~ In "."%char p -> splitext p = (p, []).
Proof.
  intros Hno. unfold splitext, rfind.
  rewrite (rfind_from_absent "." p Hno).
  pose proof (rfind_from_range "/" p 0) as Hr.
  destruct (Z.ltb_spec (rfind_from 0 "/" p) (-1)); [lia | reflexivity].
Qed.

Lemma splitext_join (p : list ascii) :
  fst (splitext p) ++ snd (splitext p) = p.
Proof.
  unfold splitext. destruct (_ <? _)%Z; [|apply app_nil_r].
  destruct (existsb _ _); [apply take_drop | apply app_nil_r].
Qed.

(** X14.  The name of the output file is the uploaded name with its last
    extension replaced by [_output.txt]: only the part after the last dot
    goes, directories and earlier dots stay, provided the last component has
    a character other than a dot before that dot.  A name without a dot
    keeps all of itself.  In every case the two parts [splitext] returns
    make up the name. *)
Theorem output_file_name_replaces_extension (dir stem ext : list ascii) :
  ~ In "/"%char stem -> ~ In "/"%char ext -> ~ In "."%char ext ->
  existsb (fun x => negb (Ascii.eqb x ".")) stem = true ->
  generate_output_file_path
    (string_of_list_ascii (dir ++ stem ++ "."%char :: ext))
  = (string_of_list_ascii (dir ++ stem) ++ "_output.txt")%string
  /\ (forall p, ~ In "."%char p ->
                generate_output_file_path (string_of_list_ascii p)
                = (string_of_list_ascii p ++ "_output.txt")%string)
  /\ (forall p, fst (splitext p) ++ snd (splitext p) = p).
Proof.
  intros Hs1 Hs2 Hd Hstem. unfold generate_output_file_path.
  split; [|split].
  - by rewrite list_ascii_of_string_of_list_ascii, splitext_parts.
  - intros p Hp.
    by rewrite list_ascii_of_string_of_list_ascii, splitext_no_dot.
  - apply splitext_join.
Qed.

Lemma output_file_name_replaces_extension_witness :
  ~ In "/"%char (list_ascii_of_string "stores.v2")
  /\ generate_output_file_path "uploads/stores.v2.csv"
     = "uploads/stores.v2_output.txt"%string.
Proof.
  assert (~ In "/"%char (list_ascii_of_string "stores.v2")) as H1
    by (simpl; intuition discriminate).
  assert (~ In "/"%char (list_ascii_of_string "csv")) as H2
    by (simpl; intuition discriminate).
  assert (~ In "."%char (list_ascii_of_string "csv")) as H3
    by (simpl; intuition discriminate).
  split; [exact H1|].
  exact (proj1 (output_file_name_replaces_extension
                  (list_ascii_of_string "uploads/")
                  (list_ascii_of_string "stores.v2")
                  (list_ascii_of_string "csv") H1 H2 H3 eq_refl)).
Defined.

Example output_file_name_examples :
  generate_output_file_path "urls.csv" = "urls_output.txt"%string
  /\ generate_output_file_path ".csv" = ".csv_output.txt"%string
  /\ generate_output_file_path "urls" = "urls_output.txt"%string
  /\ generate_output_file_path "a.b/urls" = "a.b/urls_output.txt"%string.
Proof. repeat split; reflexivity. Qed.

(** ** Run Orchestrator: where the artifact is written *)

Lemma produce_output_changes_one_file
    (URLS_FILE OUTPUT_FILE_NAME : path) (os : operating_system)
    (drivers : nat -> webdriver) (model : classifier) (fs : filesystem) :
  output_failure os OUTPUT_FILE_NAME = None ->
  exists written,
    files (fst (produce_output URLS_FILE OUTPUT_FILE_NAME os drivers model fs))
    = <[os_path_join output_directory OUTPUT_FILE_NAME := written]> fs.
Proof.
  intros Ho. rewrite produce_output_opened by exact Ho.
  set (out := os_path_join output_directory OUTPUT_FILE_NAME).
  destruct ((<[out := []]> fs) !! URLS_FILE) as [text|]; [|by exists []].
  set (st0 := {| files := <[out := []]> fs; log := []; progress := [] |}).
  destruct (for_urls_spec out (length (read_urls text)) drivers model
              (read_urls text) 0 st0 [] (lookup_insert_eq _ _ _))
    as (k & _ & Hf & _).
  eexists. rewrite Hf. cbn [files st0]. by rewrite insert_insert_eq.
Qed.

Lemma os_path_join_relative (name : string) :
  (forall rest, name <> String "/" rest) ->
  os_path_join output_directory name
  = (output_directory ++ "/" ++ name)%string.
Proof.
  intros Hrel. destruct name as [|c rest]; [reflexivity|].
  destruct (Ascii.eqb_spec c "/") as [->|Hc]; [by destruct (Hrel rest)|].
  destruct c as [[] [] [] [] [] [] [] []]; try reflexivity.
  by destruct Hc.
Qed.

Lemma generate_output_file_path_head (name : string) :
  (forall rest, name <> String "/" rest) ->
  forall rest, generate_output_file_path name <> String "/" rest.
Proof.
  intros Hrel rest. unfold generate_output_file_path, splitext.
  destruct name as [|c name]; [discriminate|].
  cbn [list_ascii_of_string].
  set (l := list_ascii_of_string name).
  assert (c <> "/"%char) as Hc by (intros ->; by apply (Hrel name)).
  destruct (_ <? _)%Z; [|simpl; intros [= ?]; contradiction].
  destruct (existsb _ _); [|simpl; intros [= ?]; contradiction].
  destruct (Z.to_nat _); simpl; [discriminate | intros [= ?]; contradiction].
Qed.

(** X15.  With a name that does not start with a slash, the one path a run
    opens for writing is [furnitron/data/inference_output/<name>], inside
    the output directory.  When the directory cannot be made, or that path
    cannot be opened, the run ends with the exception of the call and every
    file is as it was; when both calls return, the artifact is at that path
    after the run; and in either case no file at another path changes.  The
    name the dashboard generates from an upload starts with a slash only if
    the uploaded name does.  A name that starts with a slash is the path
    itself, outside the output directory. *)
Theorem artifact_is_written_in_output_directory
    (URLS_FILE OUTPUT_FILE_NAME : path) (os : operating_system)
    (drivers : nat -> webdriver) (model : classifier) (fs : filesystem) :
  (forall rest, OUTPUT_FILE_NAME <> String "/" rest) ->
  let target := (output_directory ++ "/" ++ OUTPUT_FILE_NAME)%string in
  let res := produce_output URLS_FILE OUTPUT_FILE_NAME os drivers model fs in
  match os_makedirs os output_directory, open_w os target with
  | Some e, _ | None, Some e =>
      res = ({| files := fs; log := []; progress := [] |}, Some e)
  | None, None =>
      exists artifact, files (fst res) !! target = Some artifact
  end
  /\ (forall other, other <> target ->
                    files (fst res) !! other = fs !! other)
  /\ (forall uploaded,
         (forall rest, uploaded <> String "/" rest) ->
         os_path_join output_directory (generate_output_file_path uploaded)
         = (output_directory ++ "/" ++ generate_output_file_path uploaded)%string)
  /\ (forall rest, os_path_join output_directory (String "/" rest)
                   = String "/" rest).
Proof.
  intros Hrel target res. subst res.
  pose proof (os_path_join_relative _ Hrel) as Hjoin. fold target in Hjoin.
  assert (output_failure os OUTPUT_FILE_NAME
          = match os_makedirs os output_directory with
            | Some e => Some e
            | None => open_w os target
            end) as Hfail
    by (unfold output_failure; by rewrite Hjoin).
  split; [|split; [|split]].
  - destruct (os_makedirs os output_directory) as [e|].
    + by apply produce_output_not_opened.
    + destruct (open_w os target) as [e|].
      * by apply produce_output_not_opened.
      * destruct (produce_output_changes_one_file URLS_FILE
                    OUTPUT_FILE_NAME os drivers model fs Hfail)
          as [written Hw].
        exists written. rewrite Hw, Hjoin. apply lookup_insert_eq.
  - intros other Hne.
    destruct (output_failure os OUTPUT_FILE_NAME) as [e|] eqn:Ho.
    + by rewrite (produce_output_not_opened _ _ _ _ _ _ _ Ho).
    + destruct (produce_output_changes_one_file URLS_FILE
                  OUTPUT_FILE_NAME os drivers model fs Ho) as [written Hw].
      rewrite Hw, Hjoin. by apply lookup_insert_ne.
  - intros uploaded Hup. apply os_path_join_relative.
    by apply generate_output_file_path_head.
  - reflexivity.
Qed.

Lemma artifact_is_written_in_output_directory_witness :
  (forall rest, "out.txt"%string <> String "/" rest)
  /\ exists artifact,
       files (fst (produce_output "urls.csv" "out.txt" demo_os
                      (fun _ => demo_driver) demo_model demo_fs))
         !! (output_directory ++ "/" ++ "out.txt")%string
       = Some artifact.
Proof.
  assert (forall rest, "out.txt"%string <> String "/" rest) as Hrel
    by (intros rest; discriminate).
  split; [exact Hrel|].
  exact (proj1 (artifact_is_written_in_output_directory "urls.csv" "out.txt"
                  demo_os (fun _ => demo_driver) demo_model demo_fs Hrel)).
Defined.

(** The constant the script passes already names the directory, so the
    path is the directory twice. *)
Example output_path_of_the_script :
  os_path_join output_directory OUTPUT_FILE
  = "furnitron/data/inference_output/furnitron/data/inference_output/product_names.txt"%string.
Proof. reflexivity. Qed.

(** On a system where the output directory holds no directory, the run of
    the script, with that constant, ends with [FileNotFoundError]; a run
    with the empty name, whose path is the directory with a slash, ends
    with [IsADirectoryError]; either writes nothing.  A run with a plain
    name goes through. *)
Example runs_that_cannot_open_the_output :
  produce_output "urls.csv" OUTPUT_FILE fresh_os
    (fun _ => demo_driver) demo_model demo_fs
  = ({| files := demo_fs; log := []; progress := [] |},
     Some (PyException "FileNotFoundError"))
  /\ os_path_join output_directory "" = "furnitron/data/inference_output/"%string
  /\ produce_output "urls.csv" "" fresh_os
       (fun _ => demo_driver) demo_model demo_fs
     = ({| files := demo_fs; log := []; progress := [] |},
        Some (PyException "IsADirectoryError"))
  /\ produce_output "urls.csv" "out.txt" fresh_os
       (fun _ => demo_driver) demo_model demo_fs
     = produce_output "urls.csv" "out.txt" demo_os
         (fun _ => demo_driver) demo_model demo_fs.
Proof. repeat split. Qed.

(** ** Index storage *)

(** X16.  [create_search_index] never discards an index: after the call
    the directory holds the index it returns; an index that was there is
    returned as it is, with its documents and its own schema, whatever
    schema is passed; only a directory without an index gets a new, empty
    one with the schema passed; no other directory changes; and calling
    again, with any schema, changes nothing and returns the same index. *)
Theorem create_search_index_keeps_index (index_dir : path)
    (schema0 : list (string * field_type)) (d : gmap string (option stored_index)) :
  let r := create_search_index index_dir schema0 d in
  fst r !! index_dir = Some (Some (snd r))
  /\ match d !! index_dir with
     | Some (Some ix) => r = (d, ix)
     | _ => snd r = {| index_schema := schema0; index_documents := [] |}
     end
  /\ (forall other, other <> index_dir -> fst r !! other = d !! other)
  /\ (forall schema1, create_search_index index_dir schema1 (fst r) = r)
  /\ exists_in index_dir (fst r) = true.
Proof.
  intros r. subst r. unfold create_search_index, makedirs_if_absent, exists_in.
  destruct (d !! index_dir) as [[ix|]|] eqn:Hd.
  - rewrite Hd. cbn [fst snd]. rewrite Hd.
    repeat split; try done. intros schema1. by rewrite Hd.
  - rewrite Hd. cbn [fst snd]. rewrite lookup_insert_eq.
    repeat split; try done.
    + intros other Hne. by rewrite lookup_insert_ne.
    + intros schema1. by rewrite lookup_insert_eq.
  - rewrite lookup_insert_eq. cbn [fst snd]. rewrite lookup_insert_eq.
    repeat split; try done.
    + intros other Hne. by rewrite !lookup_insert_ne.
    + intros schema1. by rewrite lookup_insert_eq.
Qed.
